(** * messaging_service: identity resolution, conversation threading,
      delivery with retry, and the request orchestrator.

    A shallow embedding of [src/utils/util.py], [src/utils/db_util.py] and
    [src/app.py].  Python values that come from the decoded request body are
    modelled by the inductive [json]; the process-wide SQLAlchemy session is
    an explicit [world] threaded through a state-and-exception monad; the
    remote endpoint and the uuid source are oracles stored in the world. *)

From Stdlib Require Import ZArith Ascii String List Lia.
From stdpp Require Import base option list gmap strings.

Local Open Scope string_scope.
Local Open Scope Z_scope.

(** ** Python strings

    Strings are sequences of ASCII characters.  The three operations below
    are [str.strip], [str.lower] and [str.replace("Z", "+00:00")]. *)

Module PyStr.

(** [str.isspace] on the ASCII range: TAB, LF, VT, FF, CR, FS, GS, RS, US
    and the blank. *)
Definition isspace (c : ascii) : bool :=
  let n := nat_of_ascii c in
  ((9 <=? n) && (n <=? 13) || (28 <=? n) && (n <=? 32))%nat.

Fixpoint lstrip (s : string) : string :=
  match s with
  | EmptyString => EmptyString
  | String c s' => if isspace c then lstrip s' else s
  end.

Fixpoint rstrip (s : string) : string :=
  match s with
  | EmptyString => EmptyString
  | String c s' =>
      match rstrip s' with
      | EmptyString => if isspace c then EmptyString else String c EmptyString
      | r => String c r
      end
  end.

Definition strip (s : string) : string := rstrip (lstrip s).

Definition lower_char (c : ascii) : ascii :=
  let n := nat_of_ascii c in
  if ((65 <=? n) && (n <=? 90))%nat then ascii_of_nat (n + 32) else c.

Fixpoint lower (s : string) : string :=
  match s with
  | EmptyString => EmptyString
  | String c s' => String (lower_char c) (lower s')
  end.

Fixpoint contains_char (c : ascii) (s : string) : bool :=
  match s with
  | EmptyString => false
  | String d s' => if Ascii.eqb c d then true else contains_char c s'
  end.

(** [s.replace(c, by)] for a one-character pattern. *)
Fixpoint replace_char (c : ascii) (by_ : string) (s : string) : string :=
  match s with
  | EmptyString => EmptyString
  | String d s' =>
      if Ascii.eqb c d then by_ +:+ replace_char c by_ s'
      else String d (replace_char c by_ s')
  end.

(** [sep.join(l)]. *)
Definition join (sep : string) (l : list string) : string :=
  String.concat sep l.

(** [sorted(l)] on strings: a stable insertion sort under the code-point
    order [String.ltb]. *)
Fixpoint insert_sorted (x : string) (l : list string) : list string :=
  match l with
  | [] => [x]
  | y :: l' => if String.ltb x y then x :: y :: l' else y :: insert_sorted x l'
  end.

Definition sorted (l : list string) : list string :=
  fold_left (fun acc x => insert_sorted x acc) l [].

End PyStr.

(** ** Decoded JSON values

    [request.get_json()] yields Python values; [None] is [JNull].  A float
    literal is kept as mantissa and decimal exponent and is never inspected. *)

#[warnings="-register-all"]
Inductive json : Type :=
| JNull
| JBool (b : bool)
| JInt (n : Z)
| JFloat (mantissa exponent : Z)
| JStr (s : string)
| JList (l : list json)
| JDict (l : list (string * json)).

(** The request body, a JSON object. *)
Abbreviation payload := (gmap string json).

(** [data.get(k)]: [None] for a missing key. *)
Definition dict_get (data : payload) (k : string) : json :=
  default JNull (data !! k).

Definition is_none (v : json) : bool :=
  match v with JNull => true | _ => false end.

Definition isinstance_str (v : json) : bool :=
  match v with JStr _ => true | _ => false end.

(** [isinstance(value, list) and all(isinstance(x, str) for x in value)]. *)
Definition isinstance_list_of_str (v : json) : bool :=
  match v with
  | JList l => forallb isinstance_str l
  | _ => false
  end.

(** ** Exceptions and results *)

(** The constraint an INSERT was rejected by. *)
Inductive constraint : Type :=
| PrimaryKey (table : string)
| Unique (name : string)
| NotNull (table column : string).

Inductive exn : Type :=
| HTTPException (code : Z) (description : string)   (* flask.abort *)
| ValueError (msg : string)
| AttributeError (msg : string)
| TimeoutError
| RequestException (detail : string)   (* any other failure of requests.post *)
| IntegrityError (c : constraint)
| InterfaceError (msg : string)        (* sqlite3 cannot bind a parameter *)
| OverflowError                        (* an int too large for SQLite INTEGER *)
| KeyboardInterrupt.                   (* a BaseException, not an Exception *)

(** [isinstance(e, Exception)]: what [except Exception] catches. *)
Definition is_Exception (e : exn) : bool :=
  match e with KeyboardInterrupt => false | _ => true end.

(** [isinstance(e, TimeoutError)]. *)
Definition is_TimeoutError (e : exn) : bool :=
  match e with TimeoutError => true | _ => false end.

Inductive result (A : Type) : Type :=
| Return (a : A)
| Raise (e : exn).
Arguments Return {A} a.
Arguments Raise {A} e.

(** [abort(code, description=d)]. *)
Definition abort {A} (code : Z) (d : string) : result A :=
  Raise (HTTPException code d).

(** ** The Python runtime pieces that are not part of the repository *)

Class Runtime := {
  datetime : Type;
  (** [datetime.fromisoformat]; [None] stands for its [ValueError]. *)
  fromisoformat : string -> option datetime;
}.

(** ** Payload validation ([utils/util.py]) *)

Inductive field_type : Type :=
| T_str
| T_datetime
| T_list_str.

(** One entry of [SMS_PAYLOAD_FIELDS] / [EMAIL_PAYLOAD_FIELDS]. *)
Record payload_field : Type := PayloadField {
  pf_field : string;
  pf_type : field_type;
  pf_required : bool;
}.

Definition SMS_PAYLOAD_FIELDS : list payload_field :=
  [ PayloadField "from" T_str true;
    PayloadField "to" T_str true;
    PayloadField "type" T_str true;
    PayloadField "messaging_provider_id" T_str true;
    PayloadField "timestamp" T_datetime true;
    PayloadField "body" T_str false;
    PayloadField "attachments" T_list_str false ].

Definition EMAIL_PAYLOAD_FIELDS : list payload_field :=
  [ PayloadField "from" T_str true;
    PayloadField "to" T_str true;
    PayloadField "xillio_id" T_str true;
    PayloadField "timestamp" T_datetime true;
    PayloadField "body" T_str false;
    PayloadField "attachments" T_list_str false ].

(** The loop of [check_one_of_fields]: is some listed field present and,
    when a string, not blank? *)
Fixpoint one_of_provided (data : payload) (fields : list string) : bool :=
  match fields with
  | [] => false
  | f :: rest =>
      match dict_get data f with
      | JNull => one_of_provided data rest
      | JStr s => if String.eqb (PyStr.strip s) "" then one_of_provided data rest
                  else true
      | _ => true
      end
  end.

Definition check_one_of_fields (data : payload) (one_of_fields : option (list string))
  : result unit :=
  match one_of_fields with
  | None | Some [] => Return tt
  | Some fields =>
      if one_of_provided data fields then Return tt
      else abort 400 ("one of the following fields must be provided in payload: "
                      +:+ PyStr.join ", " fields)
  end.

Section Validation.
Context {rt : Runtime}.

(** The type check of one present value; [Some msg] is the appended error. *)
Definition check_field_type (field_name : string) (expected : field_type) (value : json)
  : option string :=
  match expected with
  | T_list_str =>
      if isinstance_list_of_str value then None
      else Some ("payload field '" +:+ field_name +:+ "' must be a list of str")
  | T_datetime =>
      match value with
      | JStr s =>
          let s' := if PyStr.contains_char "Z" s
                    then PyStr.replace_char "Z" "+00:00" s else s in
          match fromisoformat s' with
          | Some _ => None
          | None => Some ("payload field '" +:+ field_name
                          +:+ "' must be a valid ISO8601 datetime string")
          end
      | _ => Some ("payload field '" +:+ field_name
                   +:+ "' must be an ISO8601 string representing datetime")
      end
  | T_str =>
      if isinstance_str value then None
      else Some ("payload field '" +:+ field_name +:+ "' must be of type str")
  end.

(** One iteration of the field loop: the errors it appends. *)
Definition check_payload_field (message_type : string) (data : payload)
           (item : payload_field) : list string :=
  let field_name := pf_field item in
  let value := dict_get data field_name in
  let required_field :=
    if String.eqb message_type "sms" && String.eqb field_name "body" then true
    else if String.eqb message_type "mms" && String.eqb field_name "attachments" then true
    else pf_required item in
  if is_none value then
    if required_field then ["payload missing required field: " +:+ field_name] else []
  else
    match check_field_type field_name (pf_type item) value with
    | Some msg => [msg]
    | None => []
    end.

Definition payload_errors (message_type : string) (data : payload)
           (payload_fields : list payload_field) : list string :=
  flat_map (check_payload_field message_type data) payload_fields.

Definition validate_payload (data : payload) (payload_fields : list payload_field)
           (one_of_fields : option (list string)) : result unit :=
  match dict_get data "type" with
  | JStr message_type =>
      let message_type := PyStr.lower message_type in
      if negb (existsb (String.eqb message_type) ["sms"; "mms"; "email"]) then
        abort 400 "unsupported 'type' in payload. supported types are 'sms', 'mms', and 'email'"
      else
        match (if String.eqb message_type "email"
               then check_one_of_fields data one_of_fields else Return tt) with
        | Raise e => Raise e
        | Return _ =>
            match payload_errors message_type data payload_fields with
            | [] => Return tt
            | errors => abort 400 (PyStr.join "; " errors)
            end
        end
  | _ => abort 400 "invalid 'type'. 'type' must be a non-empty string"
  end.

End Validation.

(** ** Stored rows

    The [created_at] columns are filled by a clock default and read by no
    operation of the core; they are left out of the rows.  The [customers]
    table is likewise never read or written by the core. *)

(** Modelled from the spec: [models/contact_type.py] is not under src/.  The
    spec gives the comm-method type as the enum phone | email | whatsapp;
    [ContactType(s)] looks a member up by value and raises [ValueError]
    otherwise.  Member names are taken to coincide with their values, which is
    how the rows seeded by [create_sample_data] store them. *)
Inductive ContactType : Type := phone | email | whatsapp.

Definition ContactType_value (t : ContactType) : string :=
  match t with phone => "phone" | email => "email" | whatsapp => "whatsapp" end.

Definition ContactType_of_value (s : string) : option ContactType :=
  if String.eqb s "phone" then Some phone
  else if String.eqb s "email" then Some email
  else if String.eqb s "whatsapp" then Some whatsapp
  else None.

Record CustomerCommMethod : Type := {
  ccm_id : string;
  ccm_customer_id : string;
  ccm_type : string;
  ccm_value : string;
  ccm_label : option string;
}.

Record CustomerContact : Type := {
  cc_id : string;
  cc_customer_id : string;
  cc_first_name : option string;
  cc_last_name : option string;
}.

Record CustomerContactCommMethod : Type := {
  cccm_id : string;
  cccm_customer_contact_id : string;
  cccm_type : string;
  cccm_value : string;
}.

Record Conversation : Type := {
  conv_id : string;
  conv_customer_id : string;
  conv_customer_contact_id : string;
  conv_participants_key : string;
}.

(** What the network did with one POST: [None] is a 2xx answer, [Some e] the
    exception raised by [requests.post] or [raise_for_status].  Only the
    builtin [TimeoutError] counts as a timeout for the retry loop; the
    timeouts of the requests library are [RequestException]s. *)
Abbreviation net_outcome := (option exn).

Inductive event : Type :=
| Post (api_url : string) (message_data : payload)   (* one delivery attempt *)
| Sleep (seconds : Z).                                (* time.sleep *)

Section Core.
Context {rt : Runtime}.

Record Message : Type := {
  msg_id : string;
  msg_conversation_id : string;
  msg_from_customer_comm_id : option string;
  msg_to_customer_comm_id : option string;
  msg_from_contact_comm_id : option string;
  msg_to_contact_comm_id : option string;
  msg_messaging_provider_id : json;
  msg_message_type : json;
  msg_body : json;
  msg_attachments : option json;   (* the value whose json.dumps is stored *)
  msg_timestamp : datetime;
}.

Record tables : Type := {
  customer_comm_methods : list CustomerCommMethod;
  customer_contacts : list CustomerContact;
  customer_contact_comm_methods : list CustomerContactCommMethod;
  conversations : list Conversation;
  messages : list Message;
}.

(** The state a request runs in.  [durable] is the committed database,
    [working] the view of the session's open transaction.  [uuid4] and
    [network] are oracles: the n-th generated id and the outcome of the n-th
    POST; [draws] and [posts] count how many were consumed. *)
Record world : Type := {
  durable : tables;
  working : tables;
  uuid4 : nat -> string;
  draws : nat;
  network : nat -> net_outcome;
  posts : nat;
  events : list event;
}.

(** *** The state-and-exception monad *)

Definition M (A : Type) : Type := world -> result A * world.

Definition ret {A} (a : A) : M A := fun w => (Return a, w).
Definition raise {A} (e : exn) : M A := fun w => (Raise e, w).
Definition bind {A B} (m : M A) (k : A -> M B) : M B :=
  fun w => match m w with
           | (Return a, w') => k a w'
           | (Raise e, w') => (Raise e, w')
           end.
Definition lift {A} (r : result A) : M A := fun w => (r, w).

(** [try: body  except Exception as e: handler(e)]. *)
Definition try_except {A} (body : M A) (handler : exn -> M A) : M A :=
  fun w => match body w with
           | (Raise e, w') => if is_Exception e then handler e w' else (Raise e, w')
           | r => r
           end.

End Core.

Notation "'let*' x ':=' m 'in' k" := (bind m (fun x => k))
  (at level 10, x pattern, m at level 100, k at level 200).

(** ** The session ([db.session]) *)

Section Session.
Context {rt : Runtime}.

Definition with_working (t : tables) (w : world) : world :=
  {| durable := durable w; working := t; uuid4 := uuid4 w; draws := draws w;
     network := network w; posts := posts w; events := events w |}.

Definition with_durable (t : tables) (w : world) : world :=
  {| durable := t; working := working w; uuid4 := uuid4 w; draws := draws w;
     network := network w; posts := posts w; events := events w |}.

Definition with_draws (n : nat) (w : world) : world :=
  {| durable := durable w; working := working w; uuid4 := uuid4 w; draws := n;
     network := network w; posts := posts w; events := events w |}.

(** What one delivery attempt or one sleep leaves behind. *)
Definition record_post (api_url : string) (data : payload) (w : world) : world :=
  {| durable := durable w; working := working w; uuid4 := uuid4 w; draws := draws w;
     network := network w; posts := S (posts w);
     events := events w ++ [Post api_url data] |}.

Definition record_sleep (seconds : Z) (w : world) : world :=
  {| durable := durable w; working := working w; uuid4 := uuid4 w; draws := draws w;
     network := network w; posts := posts w;
     events := events w ++ [Sleep seconds] |}.

(** [str(uuid.uuid4())], the column default evaluated when a row is
    inserted. *)
Definition new_uuid : M string :=
  fun w => (Return (uuid4 w (draws w)), with_draws (S (draws w)) w).

(** [db.session.commit()]: the open transaction becomes durable. *)
Definition commit : M unit :=
  fun w => (Return tt, with_durable (working w) w).

(** [db.session.rollback()]: the open transaction is discarded. *)
Definition rollback (w : world) : world := with_working (durable w) w.

(** A rejected INSERT: SQLAlchemy rolls the transaction back and raises. *)
Definition flush_error {A} (e : exn) : M A :=
  fun w => (Raise e, rollback w).

(** [fetchall()] of the SELECT in [get_customer_comm_method_id]. *)
Definition select_customer_comm_methods (comm_type value : string)
  : M (list (string * string)) :=
  fun w =>
    (Return
       (map (fun r => (ccm_id r, ccm_customer_id r))
            (List.filter
               (fun r => String.eqb (ccm_type r) comm_type
                         && String.eqb (ccm_value r) value)
               (customer_comm_methods (working w)))), w).

(** The rows of [customer_contact_comm_methods cm INNER JOIN
    customer_contacts cc ON cc.id = cm.customer_contact_id] that satisfy the
    WHERE clause, projected on [(cm.id, cm.customer_contact_id)]. *)
Definition contact_comm_join (t : tables) (customer_id comm_type value : string)
  : list (string * string) :=
  flat_map
    (fun cm =>
       flat_map
         (fun cc =>
            if String.eqb (cc_id cc) (cccm_customer_contact_id cm)
               && String.eqb (cc_customer_id cc) customer_id
               && String.eqb (cccm_type cm) comm_type
               && String.eqb (cccm_value cm) value
            then [(cccm_id cm, cccm_customer_contact_id cm)] else [])
         (customer_contacts t))
    (customer_contact_comm_methods t).

Definition select_customer_contact_comm_methods (customer_id comm_type value : string)
  : M (list (string * string)) :=
  fun w => (Return (contact_comm_join (working w) customer_id comm_type value), w).

(** [fetchall()] of the SELECT in [get_conversation_id]. *)
Definition select_conversations (participants_key : string) : M (list string) :=
  fun w =>
    (Return
       (map conv_id
            (List.filter
               (fun r => String.eqb (conv_participants_key r) participants_key)
               (conversations (working w)))), w).

(** *** INSERTs

    Every [db.session.add(x)] of the source is directly followed by
    [flush()] or [commit()], so an [add_*] below stands for the add together
    with the INSERT it leads to.  It takes the object without its primary
    key and returns the stored row, the way the Python object has its [id]
    filled in afterwards. *)

Definition add_CustomerContact (new_contact : string -> CustomerContact)
  : M CustomerContact :=
  let* id := new_uuid in
  fun w =>
    let t := working w in
    if existsb (fun r => String.eqb (cc_id r) id) (customer_contacts t)
    then flush_error (IntegrityError (PrimaryKey "customer_contacts")) w
    else
      (Return (new_contact id),
       with_working
         {| customer_comm_methods := customer_comm_methods t;
            customer_contacts := customer_contacts t ++ [new_contact id];
            customer_contact_comm_methods := customer_contact_comm_methods t;
            conversations := conversations t;
            messages := messages t |} w).

Definition add_CustomerContactCommMethod (new_comm : string -> CustomerContactCommMethod)
  : M CustomerContactCommMethod :=
  let* id := new_uuid in
  fun w =>
    let t := working w in
    let row := new_comm id in
    if existsb (fun r => String.eqb (cccm_id r) id) (customer_contact_comm_methods t)
    then flush_error (IntegrityError (PrimaryKey "customer_contact_comm_methods")) w
    else if existsb
              (fun r => String.eqb (cccm_customer_contact_id r) (cccm_customer_contact_id row)
                        && String.eqb (cccm_type r) (cccm_type row)
                        && String.eqb (cccm_value r) (cccm_value row))
              (customer_contact_comm_methods t)
    then flush_error (IntegrityError (Unique "uq_contact_comm_type_value")) w
    else
      (Return row,
       with_working
         {| customer_comm_methods := customer_comm_methods t;
            customer_contacts := customer_contacts t;
            customer_contact_comm_methods := customer_contact_comm_methods t ++ [row];
            conversations := conversations t;
            messages := messages t |} w).

Definition add_Conversation (new_conversation : string -> Conversation)
  : M Conversation :=
  let* id := new_uuid in
  fun w =>
    let t := working w in
    if existsb (fun r => String.eqb (conv_id r) id) (conversations t)
    then flush_error (IntegrityError (PrimaryKey "conversations")) w
    else
      (Return (new_conversation id),
       with_working
         {| customer_comm_methods := customer_comm_methods t;
            customer_contacts := customer_contacts t;
            customer_contact_comm_methods := customer_contact_comm_methods t;
            conversations := conversations t ++ [new_conversation id];
            messages := messages t |} w).

(** Can sqlite3 bind this Python value as a statement parameter? *)
Definition sqlite_bindable (v : json) : result unit :=
  match v with
  | JNull | JBool _ | JFloat _ _ | JStr _ => Return tt
  | JInt n => if (- 2 ^ 63 <=? n) && (n <? 2 ^ 63) then Return tt
              else Raise OverflowError
  | JList _ => Raise (InterfaceError "type 'list' is not supported")
  | JDict _ => Raise (InterfaceError "type 'dict' is not supported")
  end.

Definition add_Message (new_message : string -> Message) : M Message :=
  let* id := new_uuid in
  fun w =>
    let t := working w in
    let row := new_message id in
    match sqlite_bindable (msg_messaging_provider_id row),
          sqlite_bindable (msg_message_type row),
          sqlite_bindable (msg_body row) with
    | Raise e, _, _ | Return _, Raise e, _ | Return _, Return _, Raise e =>
        flush_error e w
    | Return _, Return _, Return _ =>
        if is_none (msg_message_type row)
        then flush_error (IntegrityError (NotNull "messages" "message_type")) w
        else if existsb (fun r => String.eqb (msg_id r) id) (messages t)
        then flush_error (IntegrityError (PrimaryKey "messages")) w
        else
          (Return row,
           with_working
             {| customer_comm_methods := customer_comm_methods t;
                customer_contacts := customer_contacts t;
                customer_contact_comm_methods := customer_contact_comm_methods t;
                conversations := conversations t;
                messages := messages t ++ [row] |} w)
    end.

End Session.

(** ** Identity store and conversation resolver ([utils/db_util.py]) *)

Section DbUtil.
Context {rt : Runtime}.

(** [value.strip()] on a decoded value: only a [str] has the method. *)
Definition str_strip (value : json) : result string :=
  match value with
  | JStr s => Return (PyStr.strip s)
  | _ => Raise (AttributeError "object has no attribute 'strip'")
  end.

Definition customer_comm_not_found (value : string) : string :=
  "customer communication method not found for value: " +:+ value.
Definition customer_comm_multiple (value : string) : string :=
  "multiple customer communication methods found for the same value: " +:+ value.
Definition contact_comm_multiple (value : string) : string :=
  "multiple customer contacts communication methods found for the same value: " +:+ value.
Definition conversation_multiple (participants_key : string) : string :=
  "multiple conversations found for participants key: " +:+ participants_key.

Definition get_customer_comm_method_id (comm_type : string) (value : json)
  : M (string * string) :=
  let comm_type := PyStr.lower (PyStr.strip comm_type) in
  let* value := lift (str_strip value) in
  let* result := select_customer_comm_methods comm_type value in
  match result with
  | [] => raise (ValueError (customer_comm_not_found value))
  | _ :: _ :: _ => raise (ValueError (customer_comm_multiple value))
  | [row] => ret row
  end.

(** The branch of [get_customer_contact_comm_method_id] on the fetched
    rows: more than one is an error, one is returned, none creates the
    contact and its comm method. *)
Definition found_or_new_contact (customer_id comm_type value : string)
           (result : list (string * string)) : M (string * string) :=
  match result with
  | _ :: _ :: _ => raise (ValueError (contact_comm_multiple value))
  | [row] => ret row
  | [] =>
      (* create new customer contact *)
      let* new_contact :=
        add_CustomerContact
          (fun id => {| cc_id := id; cc_customer_id := customer_id;
                        cc_first_name := None; cc_last_name := None |}) in
      (* create new customer contact comm method *)
      let* type :=
        match ContactType_of_value comm_type with
        | Some t => ret t
        | None => raise (ValueError ("'" +:+ comm_type +:+ "' is not a valid ContactType"))
        end in
      let* new_comm :=
        add_CustomerContactCommMethod
          (fun id => {| cccm_id := id;
                        cccm_customer_contact_id := cc_id new_contact;
                        cccm_type := ContactType_value type;
                        cccm_value := value |}) in
      let* _ := commit in
      ret (cccm_id new_comm, cc_id new_contact)
  end.

Definition get_customer_contact_comm_method_id
           (customer_id comm_type : string) (value : json) : M (string * string) :=
  let comm_type := PyStr.lower (PyStr.strip comm_type) in
  let* value := lift (str_strip value) in
  let* result := select_customer_contact_comm_methods customer_id comm_type value in
  found_or_new_contact customer_id comm_type value result.

Definition get_conversation_id (customer_id customer_contact_id participants_key : string)
  : M string :=
  let* result := select_conversations participants_key in
  match result with
  | _ :: _ :: _ => raise (ValueError (conversation_multiple participants_key))
  | [id] => ret id
  | [] =>
      (* create new conversation *)
      let* new_conversation :=
        add_Conversation
          (fun id => {| conv_id := id; conv_customer_id := customer_id;
                        conv_customer_contact_id := customer_contact_id;
                        conv_participants_key := participants_key |}) in
      let* _ := commit in
      ret (conv_id new_conversation)
  end.

Definition save_message (message : string -> Message) : M Message :=
  let* message := add_Message message in
  let* _ := commit in
  ret message.

End DbUtil.

(** ** Delivery gateway ([utils/util.py]) *)

Definition MAX_RETRIES : nat := 3.
Definition RETRY_DELAY : Z := 5.

Section Delivery.
Context {rt : Runtime}.

(** One POST: the network oracle decides whether [requests.post] and
    [raise_for_status] go through; any exception is re-raised. *)
Definition send_message (api_url : string) (message_data : payload) : M bool :=
  fun w =>
    match network w (posts w) with
    | None => (Return true, record_post api_url message_data w)
    | Some e => (Raise e, record_post api_url message_data w)
    end.

(** [time.sleep(seconds)]. *)
Definition sleep (seconds : Z) : M unit :=
  fun w => (Return tt, record_sleep seconds w).

(** The [for attempt in ...] loop of [api_retry_with_backoff], followed by
    the [return False] after it. *)
Fixpoint retry_loop (func : M bool) (attempts : list nat) : M bool :=
  match attempts with
  | [] => ret false
  | attempt :: rest =>
      fun w =>
        match func w with
        | (Return v, w') => (Return v, w')
        | (Raise e, w') =>
            if is_TimeoutError e then
              (let* _ := sleep (RETRY_DELAY * 2 ^ (Z.of_nat attempt - 1)) in
               retry_loop func rest) w'
            else if is_Exception e then (Return false, w')   (* break *)
            else (Raise e, w')
        end
  end.

Definition api_retry_with_backoff (func : M bool) : M bool :=
  retry_loop func (seq 1 MAX_RETRIES).

End Delivery.

(** ** Orchestrator ([app.py]) *)

(** The JSON document handed to [jsonify]. *)
Inductive response_body : Type :=
| MissingJsonPayload                             (* {"error": "missing json payload"} *)
| MessageReceived (message_id : string)          (* "message received successfully" *)
| MessageSent (message_id : string)              (* "message sent successfully" *)
| MessageFailedToSend                            (* "message failed to send" *)
| ErrorProcessing (direction comm_type : string) (e : exn).
    (* {"error": f"error processing {direction} {comm_type} payload: {e}"} *)

Definition response : Type := response_body * Z.
Definition status (r : response) : Z := snd r.

Section App.
Context {rt : Runtime}.

(** [",".join(sorted([customer_id, customer_contact_id]))]. *)
Definition participants_key (customer_id customer_contact_id : string) : string :=
  PyStr.join "," (PyStr.sorted [customer_id; customer_contact_id]).

Record participants : Type := {
  customer_comm_method_id : string;
  contact_comm_method_id : string;
  customer_id : string;
  customer_contact_id : string;
  the_participants_key : string;
}.

Definition get_participants (data : payload) (message_direction comm_type : string)
  : M participants :=
  let from_address := dict_get data "from" in
  let to_address := dict_get data "to" in
  let* customer_row :=
    get_customer_comm_method_id
      comm_type
      (if String.eqb message_direction "inbound" then to_address else from_address) in
  let '(customer_comm_method_id, customer_id) := customer_row in
  let* contact_row :=
    get_customer_contact_comm_method_id
      customer_id comm_type
      (if String.eqb message_direction "inbound" then from_address else to_address) in
  let '(contact_comm_method_id, customer_contact_id) := contact_row in
  ret {| customer_comm_method_id := customer_comm_method_id;
         contact_comm_method_id := contact_comm_method_id;
         customer_id := customer_id;
         customer_contact_id := customer_contact_id;
         the_participants_key := participants_key customer_id customer_contact_id |}.

Definition create_message (data : payload)
           (conversation_id customer_comm_method_id contact_comm_method_id
            message_direction comm_type : string) : M Message :=
  let messaging_provider_id :=
    dict_get data (if String.eqb comm_type "phone"
                   then "messaging_provider_id" else "xillio_id") in
  let message_type := dict_get data "type" in
  let body := dict_get data "body" in
  let attachments :=
    if is_none (dict_get data "attachments") then None
    else Some (dict_get data "attachments") in
  let* timestamp :=
    match dict_get data "timestamp" with
    | JStr s =>
        match fromisoformat (PyStr.replace_char "Z" "+00:00" s) with
        | Some t => ret t
        | None => raise (ValueError "Invalid isoformat string")
        end
    | _ => raise (AttributeError "object has no attribute 'replace'")
    end in
  let inbound := String.eqb message_direction "inbound" in
  let outbound := String.eqb message_direction "outbound" in
  save_message
    (fun id =>
       {| msg_id := id;
          msg_conversation_id := conversation_id;
          msg_to_customer_comm_id := if inbound then Some customer_comm_method_id else None;
          msg_from_customer_comm_id := if outbound then Some customer_comm_method_id else None;
          msg_from_contact_comm_id := if inbound then Some contact_comm_method_id else None;
          msg_to_contact_comm_id := if outbound then Some contact_comm_method_id else None;
          msg_messaging_provider_id := messaging_provider_id;
          msg_message_type := message_type;
          msg_body := body;
          msg_attachments := attachments;
          msg_timestamp := timestamp |}).

(** The statements inside [try:] of [process_inbound_message]. *)
Definition process_inbound_body (data : payload) (comm_type : string)
           (payload_fields : list payload_field) (optional_fields : option (list string))
  : M response :=
  let* _ := lift (validate_payload data payload_fields optional_fields) in
  let* p := get_participants data "inbound" comm_type in
  let* conversation_id :=
    get_conversation_id (customer_id p) (customer_contact_id p) (the_participants_key p) in
  let* message :=
    create_message data conversation_id (customer_comm_method_id p)
                   (contact_comm_method_id p) "inbound" comm_type in
  ret (MessageReceived (msg_id message), 200).

Definition process_inbound_message (data : payload) (comm_type : string)
           (payload_fields : list payload_field) (optional_fields : option (list string))
  : M response :=
  try_except
    (process_inbound_body data comm_type payload_fields optional_fields)
    (fun e => ret (ErrorProcessing "inbound" comm_type e, 400)).

(** Validation and identity resolution, the part of the [try:] block of
    [process_outbound_message] that precedes delivery. *)
Definition outbound_resolve (data : payload) (comm_type : string)
           (payload_fields : list payload_field) : M participants :=
  let* _ := lift (validate_payload data payload_fields None) in
  get_participants data "outbound" comm_type.

(** The statements inside [try:] of [process_outbound_message]. *)
Definition process_outbound_body (data : payload) (comm_type : string)
           (payload_fields : list payload_field) (outbound_url : string)
  : M response :=
  let* p := outbound_resolve data comm_type payload_fields in
  let* message_sent := api_retry_with_backoff (send_message outbound_url data) in
  if negb message_sent then
    ret (MessageFailedToSend, 500)
  else
    let* conversation_id :=
      get_conversation_id (customer_id p) (customer_contact_id p) (the_participants_key p) in
    let* message :=
      create_message data conversation_id (customer_comm_method_id p)
                     (contact_comm_method_id p) "outbound" comm_type in
    ret (MessageSent (msg_id message), 200).

Definition process_outbound_message (data : payload) (comm_type : string)
           (payload_fields : list payload_field) (outbound_url : string)
  : M response :=
  try_except
    (process_outbound_body data comm_type payload_fields outbound_url)
    (fun e => ret (ErrorProcessing "outbound" comm_type e, 400)).

(** *** Routes

    [request_json] is [request.get_json()], [None] when there is no body;
    bodies that are not JSON objects are outside the model.  When the
    request ends, Flask-SQLAlchemy removes the session, which rolls back
    whatever it left uncommitted. *)

Definition teardown_appcontext {A} (view : M A) : M A :=
  fun w => let '(r, w') := view w in (r, rollback w').

Definition SMS_OUTBOUND_URL : string :=
  "https://webhook.site/957367cc-5c8d-44c8-a27e-71ecb2098747".
Definition EMAIL_OUTBOUND_URL : string :=
  "https://webhook.site/957367cc-5c8d-44c8-a27e-71ecb2098747".

Definition without_field (name : string) (payload_fields : list payload_field)
  : list payload_field :=
  List.filter (fun f => negb (String.eqb (pf_field f) name)) payload_fields.

Definition inbound_sms (request_json : option payload) : M response :=
  teardown_appcontext
    match request_json with
    | None => ret (MissingJsonPayload, 400)
    | Some data => process_inbound_message data "phone" SMS_PAYLOAD_FIELDS None
    end.

Definition outbound_sms (request_json : option payload) : M response :=
  teardown_appcontext
    match request_json with
    | None => ret (MissingJsonPayload, 400)
    | Some data =>
        process_outbound_message
          data "phone" (without_field "messaging_provider_id" SMS_PAYLOAD_FIELDS)
          SMS_OUTBOUND_URL
    end.

Definition inbound_email (request_json : option payload) : M response :=
  teardown_appcontext
    match request_json with
    | None => ret (MissingJsonPayload, 400)
    | Some data =>
        let data := <["type" := JStr "email"]> data in
        process_inbound_message
          data "email" EMAIL_PAYLOAD_FIELDS (Some ["body"; "attachments"])
    end.

Definition outbound_email (request_json : option payload) : M response :=
  teardown_appcontext
    match request_json with
    | None => ret (MissingJsonPayload, 400)
    | Some data =>
        let data := <["type" := JStr "email"]> data in
        process_outbound_message
          data "email" (without_field "xillio_id" EMAIL_PAYLOAD_FIELDS)
          EMAIL_OUTBOUND_URL
    end.

End App.

(** ** Interleaved calls of the contact find-or-create

    Under a threaded server two requests can run
    [get_customer_contact_comm_method_id] at the same time, each in a session
    of its own.  A call touches the database twice: the SELECT, and the
    transaction that inserts both rows and commits.  A schedule interleaves
    the calls at that boundary; a session sees the committed database, and
    what a call leaves uncommitted is discarded with its session. *)

Section Interleaving.
Context {rt : Runtime}.

Inductive call_state : Type :=
| CallStart
| CallSelected (value : string) (rows : list (string * string))
| CallDone (r : result (string * string)).

Definition call_step (customer_id comm_type : string) (value : json)
           (st : call_state) (w : world) : call_state * world :=
  let comm_type := PyStr.lower (PyStr.strip comm_type) in
  match st with
  | CallStart =>
      match str_strip value with
      | Raise e => (CallDone (Raise e), w)
      | Return value =>
          match select_customer_contact_comm_methods
                  customer_id comm_type value (rollback w) with
          | (Return rows, w') => (CallSelected value rows, w')
          | (Raise e, w') => (CallDone (Raise e), w')
          end
      end
  | CallSelected value rows =>
      let '(r, w') := found_or_new_contact customer_id comm_type value rows (rollback w) in
      (CallDone r, rollback w')
  | CallDone r => (st, w)
  end.

(** [schedule] names, step by step, the call that moves next. *)
Fixpoint run_schedule (customer_id comm_type : string) (value : json)
         (schedule : list nat) (calls : list call_state) (w : world)
  : list call_state * world :=
  match schedule with
  | [] => (calls, w)
  | i :: rest =>
      match calls !! i with
      | Some st =>
          let '(st', w') := call_step customer_id comm_type value st w in
          run_schedule customer_id comm_type value rest (<[i := st']> calls) w'
      | None => run_schedule customer_id comm_type value rest calls w
      end
  end.

(** [n] calls one after another, each running to its end before the next
    starts. *)
Fixpoint run_in_sequence {A} (call : M A) (n : nat) (w : world)
  : list (result A) * world :=
  match n with
  | O => ([], w)
  | S n' =>
      let '(r, w') := call w in
      let '(rs, w'') := run_in_sequence call n' w' in
      (r :: rs, w'')
  end.

End Interleaving.

(** ** Observations on the event log *)

Definition is_Post (ev : event) : bool :=
  match ev with Post _ _ => true | Sleep _ => false end.

(** Number of delivery attempts in a log. *)
Definition attempts (log : list event) : nat :=
  length (List.filter is_Post log).

(** [gaps acc started log]: the time slept between consecutive attempts;
    [acc] is what was slept since the last attempt, [started] tells whether an
    attempt was seen at all. *)
Fixpoint gaps (acc : Z) (started : bool) (log : list event) : list Z :=
  match log with
  | [] => []
  | Sleep s :: log' => gaps (acc + s) started log'
  | Post _ _ :: log' => (if started then [acc] else []) ++ gaps 0 true log'
  end.

(** The delay before attempt 2, before attempt 3, ... *)
Definition delays_between_attempts (log : list event) : list Z := gaps 0 false log.

(** The delay before attempt [k] ([k >= 2]). *)
Definition delay_before_attempt (k : nat) (log : list event) : option Z :=
  delays_between_attempts log !! (k - 2)%nat.

(** ** Error classes of the spec, by raise site *)

Inductive NotFound : exn -> Prop :=
| NotFound_customer_comm value :
    NotFound (ValueError (customer_comm_not_found value)).

Inductive AmbiguousIdentity : exn -> Prop :=
| Ambiguous_customer_comm value :
    AmbiguousIdentity (ValueError (customer_comm_multiple value))
| Ambiguous_contact_comm value :
    AmbiguousIdentity (ValueError (contact_comm_multiple value))
| Ambiguous_conversation key :
    AmbiguousIdentity (ValueError (conversation_multiple key)).

(** The two ways a delivery fails, with the number of attempts each takes:
    a non-timeout [Exception] on attempt [k+1] after [k] timeouts, or a
    timeout on every one of the [MAX_RETRIES] attempts. *)
Inductive delivery_failure (net : nat -> net_outcome) (start : nat) : nat -> Prop :=
| failure_fatal k e :
    (k < MAX_RETRIES)%nat ->
    (forall j, (j < k)%nat -> net (start + j)%nat = Some TimeoutError) ->
    net (start + k)%nat = Some e ->
    is_TimeoutError e = false ->
    is_Exception e = true ->
    delivery_failure net start (S k)
| failure_exhausted :
    (forall j, (j < MAX_RETRIES)%nat -> net (start + j)%nat = Some TimeoutError) ->
    delivery_failure net start MAX_RETRIES.

(** ** Vocabulary of the statements

    Worlds and tables that the properties below are stated with. *)

Section Vocabulary.
Context {rt : Runtime}.

(** The world after attempts [atts] have all timed out: one POST and one
    backoff sleep per attempt. *)
Fixpoint after_timeouts (api_url : string) (data : payload) (atts : list nat)
         (w : world) : world :=
  match atts with
  | [] => w
  | attempt :: rest =>
      after_timeouts api_url data rest
        (record_sleep (RETRY_DELAY * 2 ^ (Z.of_nat attempt - 1))
                      (record_post api_url data w))
  end.

(** The tables with one contact and one contact comm method appended. *)
Definition add_contact_rows (t : tables) (c : CustomerContact)
           (m : CustomerContactCommMethod) : tables :=
  {| customer_comm_methods := customer_comm_methods t;
     customer_contacts := customer_contacts t ++ [c];
     customer_contact_comm_methods := customer_contact_comm_methods t ++ [m];
     conversations := conversations t;
     messages := messages t |}.

Definition id_in (id : string) (ids : list string) : bool :=
  existsb (String.eqb id) ids.

(** The next two generated ids collide with nothing stored: the first is no
    contact id and is referenced by no contact comm method, the second is no
    contact comm method id. *)
Definition fresh_contact_ids (w : world) : bool :=
  let t := working w in
  negb (id_in (uuid4 w (draws w)) (map cc_id (customer_contacts t)))
  && negb (id_in (uuid4 w (draws w))
                 (map cccm_customer_contact_id (customer_contact_comm_methods t)))
  && negb (id_in (uuid4 w (S (draws w)))
                 (map cccm_id (customer_contact_comm_methods t))).

(** The world after a successful creation for [(customer_id, ty, v)]. *)
Definition after_contact_creation (customer_id ty v : string) (w : world) : world :=
  let t :=
    add_contact_rows
      (working w)
      {| cc_id := uuid4 w (draws w); cc_customer_id := customer_id;
         cc_first_name := None; cc_last_name := None |}
      {| cccm_id := uuid4 w (S (draws w));
         cccm_customer_contact_id := uuid4 w (draws w);
         cccm_type := ty; cccm_value := v |} in
  {| durable := t; working := t; uuid4 := uuid4 w; draws := S (S (draws w));
     network := network w; posts := posts w; events := events w |}.

(** The world after a conversation was created for [key]. *)
Definition after_conversation_creation (a b key : string) (w : world) : world :=
  let t :=
    {| customer_comm_methods := customer_comm_methods (working w);
       customer_contacts := customer_contacts (working w);
       customer_contact_comm_methods := customer_contact_comm_methods (working w);
       conversations :=
         conversations (working w)
         ++ [{| conv_id := uuid4 w (draws w); conv_customer_id := a;
                conv_customer_contact_id := b; conv_participants_key := key |}];
       messages := messages (working w) |} in
  {| durable := t; working := t; uuid4 := uuid4 w; draws := S (draws w);
     network := network w; posts := posts w; events := events w |}.

Definition conversations_with_key (key : string) (t : tables) : list Conversation :=
  List.filter (fun r => String.eqb (conv_participants_key r) key) (conversations t).

(** Both the committed database and the session hold messages [ms]. *)
Definition holds_messages (ms : list Message) (w : world) : Prop :=
  messages (durable w) = ms /\ messages (working w) = ms.

End Vocabulary.

(** ** Frames and content

    Relations between the world before and after a computation, and the
    predicates the statements on validation and keys use. *)

Section Frames.
Context {rt : Runtime}.

(** Every run of [m] relates the world before to the world after by [R]. *)
Definition preserves {A} (R : world -> world -> Prop) (m : M A) : Prop :=
  forall w r w', m w = (r, w') -> R w w'.

(** Every exception that leaves [m] satisfies [P]. *)
Definition raises_only {A} (P : exn -> Prop) (m : M A) : Prop :=
  forall w e w', m w = (Raise e, w') -> P e.

(** Nothing outside the database moved: no POST, no sleep, same oracles. *)
Definition offline (w w' : world) : Prop :=
  network w' = network w /\ posts w' = posts w /\
  events w' = events w /\ uuid4 w' = uuid4 w.

(** Does a value count for the one-of rule: it is not [None] and, when a
    string, not blank. *)
Definition has_content (v : json) : bool :=
  match v with
  | JNull => false
  | JStr s => negb (String.eqb (PyStr.strip s) "")
  | _ => true
  end.

(** A present value has the declared type. *)
Definition well_typed (expected : field_type) (value : json) : Prop :=
  match expected with
  | T_str => exists s, value = JStr s
  | T_list_str => exists l, value = JList l /\ forallb isinstance_str l = true
  | T_datetime =>
      exists s, value = JStr s /\
                is_Some (fromisoformat (PyStr.replace_char "Z" "+00:00" s))
  end.

Definition comma_free (s : string) : bool :=
  negb (PyStr.contains_char "," s).

(** A string that does not start with white space. *)
Definition starts_clean (s : string) : Prop :=
  match s with
  | EmptyString => True
  | String c _ => PyStr.isspace c = false
  end.

(** The tables with one message appended. *)
Definition with_message (t : tables) (m : Message) : tables :=
  {| customer_comm_methods := customer_comm_methods t;
     customer_contacts := customer_contacts t;
     customer_contact_comm_methods := customer_contact_comm_methods t;
     conversations := conversations t;
     messages := messages t ++ [m] |}.

(** The payload with sender and recipient exchanged. *)
Definition swap_addresses (data : payload) : payload :=
  <["from" := dict_get data "to"]> (<["to" := dict_get data "from"]> data).

End Frames.

(** Worlds used to run the definitions on concrete inputs. *)

Module Sample.

(** A recogniser for timestamps of the shape [YYYY-MM-DDTHH:MM:SS+00:00],
    with a day up to 28: every string it accepts is accepted by
    [datetime.fromisoformat]. *)
Definition digit_at (s : string) (i : nat) : option Z :=
  match String.get i s with
  | Some c =>
      let n := nat_of_ascii c in
      if ((48 <=? n) && (n <=? 57))%nat then Some (Z.of_nat n - 48) else None
  | None => None
  end.

Definition number_at (s : string) (i len : nat) : option Z :=
  fold_left
    (fun acc j =>
       match acc, digit_at s j with
       | Some a, Some d => Some (10 * a + d)
       | _, _ => None
       end)
    (seq i len) (Some 0).

Definition separators_ok (s : string) : bool :=
  forallb
    (fun '(i, c) =>
       match String.get i s with
       | Some d => Ascii.eqb c d
       | None => false
       end)
    [(4%nat, "-"%char); (7%nat, "-"%char); (10%nat, "T"%char);
     (13%nat, ":"%char); (16%nat, ":"%char)].

Definition parse_utc_timestamp (s : string) : option (list Z) :=
  if negb ((String.length s =? 25)%nat && separators_ok s
           && String.eqb (String.substring 19 6 s) "+00:00")
  then None
  else
    match number_at s 0 4, number_at s 5 2, number_at s 8 2,
          number_at s 11 2, number_at s 14 2, number_at s 17 2 with
    | Some y, Some mo, Some d, Some h, Some mi, Some sec =>
        if (1 <=? y) && (1 <=? mo) && (mo <=? 12) && (1 <=? d) && (d <=? 28)
           && (h <=? 23) && (mi <=? 59) && (sec <=? 59)
        then Some [y; mo; d; h; mi; sec] else None
    | _, _, _, _, _, _ => None
    end.

#[export] Instance runtime : Runtime :=
  {| datetime := list Z; fromisoformat := parse_utc_timestamp |}.

(** The n-th generated id. *)
Definition sample_uuid4 (n : nat) : string :=
  "uuid-" +:+ String.concat "" (repeat "i" n).

(** The rows of [create_sample_data], with readable ids. *)
Definition seeded : tables :=
  {| customer_comm_methods :=
       [ {| ccm_id := "ccm-1"; ccm_customer_id := "customer-1"; ccm_type := "phone";
            ccm_value := "+12155550000"; ccm_label := Some "main phone number" |};
         {| ccm_id := "ccm-2"; ccm_customer_id := "customer-1"; ccm_type := "email";
            ccm_value := "info@keystonecarpentry.com"; ccm_label := Some "main email" |};
         {| ccm_id := "ccm-3"; ccm_customer_id := "customer-1"; ccm_type := "whatsapp";
            ccm_value := "+12155550000"; ccm_label := Some "whatsapp number" |};
         {| ccm_id := "ccm-4"; ccm_customer_id := "customer-2"; ccm_type := "phone";
            ccm_value := "+12155551111"; ccm_label := Some "main number" |};
         {| ccm_id := "ccm-5"; ccm_customer_id := "customer-2"; ccm_type := "email";
            ccm_value := "info@hydronyc.com"; ccm_label := Some "main email" |} ];
     customer_contacts :=
       [ {| cc_id := "contact-1"; cc_customer_id := "customer-1";
            cc_first_name := Some "Jane"; cc_last_name := Some "Doe" |};
         {| cc_id := "contact-2"; cc_customer_id := "customer-2";
            cc_first_name := Some "John"; cc_last_name := Some "Doe" |} ];
     customer_contact_comm_methods :=
       [ {| cccm_id := "cccm-1"; cccm_customer_contact_id := "contact-1";
            cccm_type := "phone"; cccm_value := "+15551230001" |};
         {| cccm_id := "cccm-2"; cccm_customer_contact_id := "contact-1";
            cccm_type := "email"; cccm_value := "janed@gmail.com" |};
         {| cccm_id := "cccm-3"; cccm_customer_contact_id := "contact-2";
            cccm_type := "phone"; cccm_value := "+15551230002" |} ];
     conversations := [];
     messages := [] |}.

(** A fresh process over database [t], facing network [net]. *)
Definition boot (t : tables) (net : nat -> net_outcome) : world :=
  {| durable := t; working := t; uuid4 := sample_uuid4; draws := 0;
     network := net; posts := 0; events := [] |}.

Definition net_ok : nat -> net_outcome := fun _ => None.
Definition net_timeout : nat -> net_outcome := fun _ => Some TimeoutError.
Definition net_rejects : nat -> net_outcome :=
  fun _ => Some (RequestException "500 Server Error").
(** One timeout, then a rejection. *)
Definition net_timeout_then_rejects : nat -> net_outcome :=
  fun n => match n with
           | O => Some TimeoutError
           | _ => Some (RequestException "401 Client Error")
           end.

Definition outbound_sms_hello : payload :=
  {[ "from" := JStr "+12155550000"; "to" := JStr "+15559990000";
     "type" := JStr "sms"; "body" := JStr "hello";
     "timestamp" := JStr "2024-11-01T14:00:00Z" ]}.

(** [seeded], after a second customer registered the number the first one
    already uses; [uq_customer_comm_type_value] allows it, the customer id
    being part of the key. *)
Definition shared_number : tables :=
  {| customer_comm_methods :=
       customer_comm_methods seeded
       ++ [ {| ccm_id := "ccm-6"; ccm_customer_id := "customer-2"; ccm_type := "phone";
               ccm_value := "+12155550000"; ccm_label := Some "front desk" |} ];
     customer_contacts := customer_contacts seeded;
     customer_contact_comm_methods := customer_contact_comm_methods seeded;
     conversations := conversations seeded;
     messages := messages seeded |}.

Definition inbound_sms_hi : payload :=
  {[ "from" := JStr "+15559990000"; "to" := JStr "+12155550000";
     "type" := JStr "sms"; "messaging_provider_id" := JStr "message-1";
     "body" := JStr "hi"; "timestamp" := JStr "2024-11-01T14:00:00Z" ]}.

(** An email with neither [body] nor [attachments]. *)
Definition email_without_content : payload :=
  {[ "from" := JStr "info@keystonecarpentry.com"; "to" := JStr "janed@gmail.com";
     "timestamp" := JStr "2024-11-01T14:00:00Z" ]}.

End Sample.

(** * Properties *)

(** ** The retry wrapper *)

Section RetryProperties.
Context {rt : Runtime}.

Lemma after_timeouts_frame api_url data atts w :
  let w' := after_timeouts api_url data atts w in
  durable w' = durable w /\ working w' = working w /\ uuid4 w' = uuid4 w /\
  draws w' = draws w /\ network w' = network w /\
  posts w' = (posts w + length atts)%nat.
Proof.
  revert w. induction atts as [|a atts IH]; intros w; simpl.
  - repeat split; lia.
  - destruct (IH (record_sleep (RETRY_DELAY * 2 ^ (Z.of_nat a - 1))
                               (record_post api_url data w)))
      as (Hd & Hw & Hu & Hdr & Hn & Hp).
    simpl in *. repeat split; try assumption. lia.
Qed.

(** While the network times out, the loop walks through its attempts. *)
Lemma retry_loop_timeouts api_url data pre rest w :
  (forall j, (j < length pre)%nat -> network w (posts w + j)%nat = Some TimeoutError) ->
  retry_loop (send_message api_url data) (pre ++ rest) w
  = retry_loop (send_message api_url data) rest (after_timeouts api_url data pre w).
Proof.
  revert w. induction pre as [|a pre IH]; intros w Hnet; simpl; [reflexivity|].
  unfold send_message at 1.
  pose proof (Hnet 0%nat ltac:(simpl; lia)) as H0.
  rewrite Nat.add_0_r in H0. rewrite H0.
  simpl. unfold bind, sleep. simpl.
  apply IH.
  intros j Hj. simpl.
  replace (S (posts w + j)) with (posts w + S j)%nat by lia.
  apply Hnet. simpl. lia.
Qed.

(** A failing delivery makes the wrapper return [False]; only the log and
    the POST counter move, by the number of attempts the failure takes. *)
Lemma retry_failure api_url data w n :
  delivery_failure (network w) (posts w) n ->
  exists w',
    api_retry_with_backoff (send_message api_url data) w = (Return false, w') /\
    durable w' = durable w /\ working w' = working w /\
    posts w' = (posts w + n)%nat.
Proof.
  intros Hfail. unfold api_retry_with_backoff.
  destruct Hfail as [k e Hk Hpre Hk_e Hnt Hex | Hall].
  - replace (seq 1 MAX_RETRIES)
      with (seq 1 k ++ S k :: seq (S (S k)) (MAX_RETRIES - S k))%list.
    2:{ unfold MAX_RETRIES in *.
        destruct k as [|[|[|k]]]; try lia; reflexivity. }
    rewrite retry_loop_timeouts by (rewrite length_seq; exact Hpre).
    destruct (after_timeouts_frame api_url data (seq 1 k) w)
      as (Hd & Hw & _ & _ & Hn & Hp).
    rewrite length_seq in Hp.
    simpl. unfold send_message at 1. rewrite Hn, Hp, Hk_e, Hnt, Hex.
    eexists. split; [reflexivity|]. simpl. repeat split; try assumption. lia.
  - rewrite <- (app_nil_r (seq 1 MAX_RETRIES)).
    rewrite retry_loop_timeouts by (rewrite length_seq; exact Hall).
    destruct (after_timeouts_frame api_url data (seq 1 MAX_RETRIES) w)
      as (Hd & Hw & _ & _ & _ & Hp).
    rewrite length_seq in Hp.
    eexists. split; [reflexivity|]. repeat split; assumption.
Qed.

End RetryProperties.

Section RetryWrapper.
Context {rt : Runtime}.

(** C3.  When every delivery attempt times out, the retry wrapper (3
    attempts, base delay 5s) makes exactly 3 attempts, sleeps
    [RETRY_DELAY * 2^(k-2)] before attempt k (5s before the second, 10s
    before the third) and then returns [False]; there is no fourth attempt.
    The log also shows the 20s the loop sleeps after the third timeout,
    before it gives up. *)
Theorem backoff_schedule (api_url : string) (data : payload) (w : world) :
  (forall n, network w n = Some TimeoutError) ->
  exists w' log,
    api_retry_with_backoff (send_message api_url data) w = (Return false, w') /\
    events w' = (events w ++ log)%list /\
    log = [Post api_url data; Sleep 5; Post api_url data; Sleep 10;
           Post api_url data; Sleep 20] /\
    attempts log = 3%nat /\
    posts w' = (posts w + 3)%nat /\
    delays_between_attempts log = [5; 10] /\
    (forall k, (2 <= k <= 3)%nat ->
               delay_before_attempt k log = Some (RETRY_DELAY * 2 ^ (Z.of_nat k - 2))).
Proof.
  intros Hnet. unfold api_retry_with_backoff.
  rewrite <- (app_nil_r (seq 1 MAX_RETRIES)).
  rewrite retry_loop_timeouts by (intros; apply Hnet).
  eexists; eexists. split; [reflexivity|].
  split; [|split; [reflexivity|]].
  - simpl. rewrite <- !app_assoc. reflexivity.
  - repeat split.
    + simpl. lia.
    + intros k Hk.
      assert (k = 2 \/ k = 3)%nat as [-> | ->] by lia; reflexivity.
Qed.

(** C7.  A non-timeout exception from the delivery function ends the retry
    loop at once: after [k] timeouts and a non-timeout exception on attempt
    [k+1] exactly [k+1] attempts were made.  In that case and when all
    [MAX_RETRIES] attempts time out, the wrapper returns the boolean
    [False]; no exception leaves it. *)
Theorem retry_wrapper_returns_false (api_url : string) (data : payload)
        (w : world) (n : nat) :
  delivery_failure (network w) (posts w) n ->
  exists w',
    api_retry_with_backoff (send_message api_url data) w = (Return false, w') /\
    posts w' = (posts w + n)%nat /\
    (n <= MAX_RETRIES)%nat.
Proof.
  intros Hfail.
  destruct (retry_failure api_url data w n Hfail) as (w' & Hrun & _ & _ & Hposts).
  exists w'. repeat split; try assumption.
  destruct Hfail; unfold MAX_RETRIES in *; lia.
Qed.

End RetryWrapper.

Lemma backoff_schedule_witness :
  exists w' log,
    api_retry_with_backoff
      (send_message SMS_OUTBOUND_URL Sample.outbound_sms_hello)
      (Sample.boot Sample.seeded Sample.net_timeout) = (Return false, w') /\
    attempts log = 3%nat /\ delays_between_attempts log = [5; 10].
Proof.
  destruct (backoff_schedule SMS_OUTBOUND_URL Sample.outbound_sms_hello
              (Sample.boot Sample.seeded Sample.net_timeout))
    as (w' & log & Hrun & _ & _ & Hatt & _ & Hdel & _).
  - intros n. reflexivity.
  - exists w', log. repeat split; assumption.
Defined.

Lemma retry_wrapper_returns_false_witness :
  exists w',
    api_retry_with_backoff
      (send_message SMS_OUTBOUND_URL Sample.outbound_sms_hello)
      (Sample.boot Sample.seeded Sample.net_timeout_then_rejects) = (Return false, w') /\
    posts w' = 2%nat.
Proof.
  destruct (retry_wrapper_returns_false SMS_OUTBOUND_URL Sample.outbound_sms_hello
              (Sample.boot Sample.seeded Sample.net_timeout_then_rejects) 2)
    as (w' & Hrun & Hposts & _).
  - apply (failure_fatal _ _ 1 (RequestException "401 Client Error")).
    + unfold MAX_RETRIES. lia.
    + intros j Hj. assert (j = 0)%nat as -> by lia. reflexivity.
    + reflexivity.
    + reflexivity.
    + reflexivity.
  - exists w'. split; assumption.
Defined.

(** ** Payload validation *)

Section ValidationProperties.
Context {rt : Runtime}.

Lemma payload_errors_missing message_type data payload_fields item :
  In item payload_fields ->
  check_payload_field message_type data item <> [] ->
  payload_errors message_type data payload_fields <> [].
Proof.
  unfold payload_errors.
  induction payload_fields as [|f fs IH]; simpl; intros Hin Hne; [contradiction|].
  destruct Hin as [-> | Hin].
  - destruct (check_payload_field message_type data item); [congruence|discriminate].
  - intros Happ. apply app_eq_nil in Happ as [_ Hfs]. exact (IH Hin Hne Hfs).
Qed.

(** Once the type is accepted, any field error makes validation abort with
    status 400. *)
Lemma validate_payload_field_errors data payload_fields one_of_fields t :
  dict_get data "type" = JStr t ->
  PyStr.lower t = "sms" \/ PyStr.lower t = "mms" ->
  payload_errors (PyStr.lower t) data payload_fields <> [] ->
  exists description,
    validate_payload data payload_fields one_of_fields
    = Raise (HTTPException 400 description).
Proof.
  intros Htype Hkind Herr. unfold validate_payload. rewrite Htype.
  destruct (payload_errors (PyStr.lower t) data payload_fields) as [|e es];
    [congruence|].
  destruct Hkind as [-> | ->]; simpl; eexists; reflexivity.
Qed.

(** C10.  [SMS_PAYLOAD_FIELDS] declares [body] and [attachments] optional,
    yet validation fails (status 400) for every payload of type sms whose
    body is absent and for every payload of type mms whose attachments are
    absent, whenever the field list names that field. *)
Theorem type_specific_required_fields (data : payload)
        (payload_fields : list payload_field)
        (one_of_fields : option (list string)) (t field_name : string) :
  dict_get data "type" = JStr t ->
  (PyStr.lower t = "sms" /\ field_name = "body") \/
  (PyStr.lower t = "mms" /\ field_name = "attachments") ->
  dict_get data field_name = JNull ->
  In field_name (map pf_field payload_fields) ->
  (exists description,
     validate_payload data payload_fields one_of_fields
     = Raise (HTTPException 400 description)) /\
  (forall item, In item SMS_PAYLOAD_FIELDS ->
                pf_field item = field_name -> pf_required item = false).
Proof.
  intros Htype Hkind Habsent Hin. split.
  - apply in_map_iff in Hin as (item & Hname & Hitem).
    apply validate_payload_field_errors with (t := t); [assumption | tauto |].
    apply payload_errors_missing with (item := item); [assumption|].
    unfold check_payload_field. rewrite Hname, Habsent.
    destruct Hkind as [[-> ->] | [-> ->]]; simpl; discriminate.
  - intros item Hitem Hname.
    unfold SMS_PAYLOAD_FIELDS in Hitem. simpl in Hitem.
    destruct Hkind as [[_ ->] | [_ ->]];
      repeat (destruct Hitem as [<- | Hitem]; [simpl in *; try discriminate; reflexivity|]);
      contradiction.
Qed.

End ValidationProperties.

Lemma type_specific_required_fields_witness :
  exists description,
    validate_payload (rt := Sample.runtime)
      (delete "body" Sample.outbound_sms_hello)
      (without_field "messaging_provider_id" SMS_PAYLOAD_FIELDS) None
    = Raise (HTTPException 400 description).
Proof.
  apply (type_specific_required_fields (rt := Sample.runtime)
           (delete "body" Sample.outbound_sms_hello)
           (without_field "messaging_provider_id" SMS_PAYLOAD_FIELDS) None
           "sms" "body").
  - vm_compute. reflexivity.
  - left. split; reflexivity.
  - vm_compute. reflexivity.
  - simpl. tauto.
Defined.

(** ** Identity store *)

Ltac unfold_monad := unfold bind, ret, raise, lift, try_except in *.

Section IdentityProperties.
Context {rt : Runtime}.

(** C4.  Resolving a customer comm method never changes the world (in
    particular it creates no row).  With the key normalised (type trimmed
    and lower-cased, value trimmed), it returns the [(id, customer_id)] of
    the row when exactly one provisioned row matches, raises the not-found
    error when none matches, and raises the multiple-rows error when more
    than one matches. *)
Theorem customer_comm_method_resolution (comm_type value : string) (w : world) :
  let rows :=
    List.filter
      (fun r => String.eqb (ccm_type r) (PyStr.lower (PyStr.strip comm_type))
                && String.eqb (ccm_value r) (PyStr.strip value))
      (customer_comm_methods (working w)) in
  exists r,
    get_customer_comm_method_id comm_type (JStr value) w = (r, w) /\
    match rows with
    | [] => exists e, r = Raise e /\ NotFound e
    | [row] => r = Return (ccm_id row, ccm_customer_id row)
    | _ :: _ :: _ => exists e, r = Raise e /\ AmbiguousIdentity e
    end.
Proof.
  intros rows. unfold get_customer_comm_method_id, select_customer_comm_methods.
  unfold_monad. simpl. fold rows.
  destruct rows as [|row [|row' rows']]; simpl.
  - eexists. split; [reflexivity|]. eexists. split; [reflexivity|]. constructor.
  - eexists. split; reflexivity.
  - eexists. split; [reflexivity|]. eexists. split; [reflexivity|]. constructor.
Qed.

End IdentityProperties.

Section ContactCreation.
Context {rt : Runtime}.

Lemma existsb_key_false {A} (f : A -> string) (id : string) (l : list A) :
  id_in id (map f l) = false ->
  existsb (fun r => String.eqb (f r) id) l = false.
Proof.
  unfold id_in. induction l as [|x l IH]; simpl; [reflexivity|].
  intros Hno. apply orb_false_iff in Hno as [Hx Hl].
  rewrite String.eqb_sym, Hx. simpl. exact (IH Hl).
Qed.

Lemma ContactType_value_of (ty : string) (t0 : ContactType) :
  ContactType_of_value ty = Some t0 -> ContactType_value t0 = ty.
Proof.
  unfold ContactType_of_value.
  destruct (String.eqb ty "phone") eqn:E1;
    [intros [= <-]; symmetry; apply String.eqb_eq, E1|].
  destruct (String.eqb ty "email") eqn:E2;
    [intros [= <-]; symmetry; apply String.eqb_eq, E2|].
  destruct (String.eqb ty "whatsapp") eqn:E3;
    [intros [= <-]; symmetry; apply String.eqb_eq, E3|].
  discriminate.
Qed.

(** Whatever happens on the create path, nothing or both rows become
    durable. *)
Lemma found_or_new_contact_atomic customer_id ty v w r w' :
  found_or_new_contact customer_id ty v [] w = (r, w') ->
  (exists e, r = Raise e /\ durable w' = durable w) \/
  (r = Return (uuid4 w (S (draws w)), uuid4 w (draws w)) /\
   w' = after_contact_creation customer_id ty v w).
Proof.
  unfold found_or_new_contact, add_CustomerContact, add_CustomerContactCommMethod,
    new_uuid, commit, flush_error.
  unfold_monad. simpl.
  destruct (existsb _ (customer_contacts (working w)));
    [intros [= <- <-]; left; eexists; split; reflexivity|].
  simpl.
  destruct (ContactType_of_value ty) as [t0|] eqn:Hty;
    [|intros [= <- <-]; left; eexists; split; reflexivity].
  simpl.
  destruct (existsb _ (customer_contact_comm_methods (working w)));
    [intros [= <- <-]; left; eexists; split; reflexivity|].
  destruct (existsb _ (customer_contact_comm_methods (working w)));
    [intros [= <- <-]; left; eexists; split; reflexivity|].
  intros [= <- <-]. right. split; [reflexivity|].
  unfold after_contact_creation, add_contact_rows, with_durable. simpl.
  rewrite (ContactType_value_of _ _ Hty). reflexivity.
Qed.

End ContactCreation.

Section ContactResolution.
Context {rt : Runtime}.

Lemma fresh_contact_ids_spec w :
  fresh_contact_ids w = true ->
  id_in (uuid4 w (draws w)) (map cc_id (customer_contacts (working w))) = false /\
  id_in (uuid4 w (draws w))
        (map cccm_customer_contact_id (customer_contact_comm_methods (working w)))
  = false /\
  id_in (uuid4 w (S (draws w)))
        (map cccm_id (customer_contact_comm_methods (working w))) = false.
Proof.
  unfold fresh_contact_ids. intros Hf.
  apply andb_true_iff in Hf as [Hf H3]. apply andb_true_iff in Hf as [H1 H2].
  apply negb_true_iff in H1, H2, H3. auto.
Qed.

(** With a valid type and fresh ids the create path succeeds. *)
Lemma found_or_new_contact_creates customer_id ty v w :
  is_Some (ContactType_of_value ty) ->
  fresh_contact_ids w = true ->
  found_or_new_contact customer_id ty v [] w
  = (Return (uuid4 w (S (draws w)), uuid4 w (draws w)),
     after_contact_creation customer_id ty v w).
Proof.
  intros [t0 Hty] Hfresh.
  apply fresh_contact_ids_spec in Hfresh as (Hc & Href & Hm).
  unfold found_or_new_contact, add_CustomerContact, add_CustomerContactCommMethod,
    new_uuid, commit, flush_error.
  unfold_monad. simpl.
  rewrite (existsb_key_false cc_id _ _ Hc). simpl. rewrite Hty. simpl.
  rewrite (existsb_key_false cccm_id _ _ Hm).
  replace (existsb _ (customer_contact_comm_methods (working w))) with false.
  - unfold after_contact_creation, add_contact_rows, with_durable. simpl.
    rewrite (ContactType_value_of _ _ Hty). reflexivity.
  - symmetry. apply not_true_is_false. intros Hex.
    apply existsb_exists in Hex as (r & Hr & Hmatch).
    apply andb_true_iff in Hmatch as [Hmatch _].
    apply andb_true_iff in Hmatch as [Hmatch _].
    apply String.eqb_eq in Hmatch.
    assert (id_in (uuid4 w (draws w))
                  (map cccm_customer_contact_id
                       (customer_contact_comm_methods (working w))) = true) as Hin.
    { unfold id_in. apply existsb_exists.
      exists (cccm_customer_contact_id r). split.
      - apply in_map. exact Hr.
      - rewrite Hmatch. apply String.eqb_refl. }
    congruence.
Qed.

Lemma flat_map_eq_nil {A B} (f : A -> list B) (l : list A) :
  flat_map f l = [] <-> (forall x, In x l -> f x = []).
Proof.
  induction l as [|a l IH]; simpl.
  - split; [intros _ x []|reflexivity].
  - split.
    + intros Happ. apply app_eq_nil in Happ as [Ha Hl].
      intros x [<- | Hx]; [assumption|]. apply IH; assumption.
    + intros Hall. rewrite (Hall a) by auto. simpl. apply IH. auto.
Qed.

(** After a creation from a state with no match, the lookup finds exactly
    the new pair. *)
Lemma join_after_creation t customer_id ty v u1 u2 :
  contact_comm_join t customer_id ty v = [] ->
  id_in u1 (map cc_id (customer_contacts t)) = false ->
  id_in u1 (map cccm_customer_contact_id (customer_contact_comm_methods t)) = false ->
  contact_comm_join
    (add_contact_rows
       t
       {| cc_id := u1; cc_customer_id := customer_id;
          cc_first_name := None; cc_last_name := None |}
       {| cccm_id := u2; cccm_customer_contact_id := u1;
          cccm_type := ty; cccm_value := v |})
    customer_id ty v
  = [(u2, u1)].
Proof.
  intros Hnone Hc Href. unfold contact_comm_join in *. simpl.
  rewrite flat_map_app. simpl. rewrite ?app_nil_r.
  rewrite flat_map_app. simpl. rewrite !String.eqb_refl. simpl.
  match goal with |- (?old ++ ?mine ++ _)%list = _ =>
    assert (old = []) as Hold; [|assert (mine = []) as Hmine]
  end; [| |rewrite Hold, Hmine; reflexivity].
  - apply flat_map_eq_nil. intros cm Hcm.
    rewrite flat_map_app. simpl. rewrite app_nil_r.
    rewrite (proj1 (flat_map_eq_nil _ _) Hnone cm Hcm). simpl.
    destruct (String.eqb u1 (cccm_customer_contact_id cm)) eqn:E; [|reflexivity].
    exfalso. unfold id_in in Href.
    assert (existsb (String.eqb u1)
                    (map cccm_customer_contact_id (customer_contact_comm_methods t))
            = true) as Hin; [|congruence].
    apply existsb_exists. exists (cccm_customer_contact_id cm).
    split; [apply in_map; exact Hcm | exact E].
  - apply flat_map_eq_nil. intros cc Hcc.
    destruct (String.eqb (cc_id cc) u1) eqn:E; [|reflexivity].
    exfalso. unfold id_in in Hc.
    assert (existsb (String.eqb u1) (map cc_id (customer_contacts t)) = true)
      as Hin; [|congruence].
    apply existsb_exists. exists (cc_id cc).
    split; [apply in_map; exact Hcc | rewrite String.eqb_sym; exact E].
Qed.

(** The whole function, by the rows its SELECT returns. *)
Lemma get_customer_contact_comm_method_id_unfold customer_id comm_type value w :
  get_customer_contact_comm_method_id customer_id comm_type (JStr value) w
  = found_or_new_contact
      customer_id (PyStr.lower (PyStr.strip comm_type)) (PyStr.strip value)
      (contact_comm_join (working w) customer_id
                         (PyStr.lower (PyStr.strip comm_type)) (PyStr.strip value))
      w.
Proof. reflexivity. Qed.

(** The rows of the join are the pairs of a stored contact comm method and a
    stored contact that pass the ON and WHERE conditions. *)
Lemma contact_comm_join_product (t : tables) (customer_id ty v : string) :
  contact_comm_join t customer_id ty v
  = map (fun p : CustomerContactCommMethod * CustomerContact =>
           (cccm_id (fst p), cccm_customer_contact_id (fst p)))
        (List.filter
           (fun p : CustomerContactCommMethod * CustomerContact =>
              String.eqb (cc_id (snd p)) (cccm_customer_contact_id (fst p))
              && String.eqb (cc_customer_id (snd p)) customer_id
              && String.eqb (cccm_type (fst p)) ty
              && String.eqb (cccm_value (fst p)) v)
           (list_prod (customer_contact_comm_methods t) (customer_contacts t))).
Proof.
  unfold contact_comm_join.
  generalize (customer_contacts t) as ccs.
  generalize (customer_contact_comm_methods t) as cms.
  intros cms ccs.
  induction cms as [|cm cms IH]; simpl; [reflexivity|].
  rewrite List.filter_app, map_app, IH. f_equal.
  clear IH. induction ccs as [|cc ccs IHc]; simpl; [reflexivity|].
  destruct (String.eqb (cc_id cc) (cccm_customer_contact_id cm)
            && String.eqb (cc_customer_id cc) customer_id
            && String.eqb (cccm_type cm) ty
            && String.eqb (cccm_value cm) v); simpl; rewrite IHc; reflexivity.
Qed.

(** C5.  Contact find-or-create for [(customer_id, type, value)], by the
    pairs of a stored contact comm method and a stored contact such that the
    comm method belongs to the contact, the contact belongs to the customer,
    and the comm method has the normalised type and value.  Exactly one such
    pair: the comm method's id and the contact's id are returned and the
    world is unchanged.  More than one: the multiple-rows error, world
    unchanged.  None: either the call raises and the durable tables are what
    they were, or it returns the two new ids and the durable tables gained
    exactly one contact with null names and one comm method referencing it
    -- never one without the other; with a valid type and fresh ids it is
    the latter. *)
Theorem contact_find_or_create
        (customer_id comm_type value : string) (w : world)
        (r : result (string * string)) (w' : world) :
  get_customer_contact_comm_method_id customer_id comm_type (JStr value) w = (r, w') ->
  let ty := PyStr.lower (PyStr.strip comm_type) in
  let v := PyStr.strip value in
  let matching :=
    List.filter
      (fun p : CustomerContactCommMethod * CustomerContact =>
         String.eqb (cc_id (snd p)) (cccm_customer_contact_id (fst p))
         && String.eqb (cc_customer_id (snd p)) customer_id
         && String.eqb (cccm_type (fst p)) ty
         && String.eqb (cccm_value (fst p)) v)
      (list_prod (customer_contact_comm_methods (working w))
                 (customer_contacts (working w))) in
  match matching with
  | [(cm, cc)] =>
      r = Return (cccm_id cm, cc_id cc) /\ w' = w /\
      cccm_customer_contact_id cm = cc_id cc /\ cc_customer_id cc = customer_id
  | _ :: _ :: _ => (exists e, r = Raise e /\ AmbiguousIdentity e) /\ w' = w
  | [] =>
      let created :=
        r = Return (uuid4 w (S (draws w)), uuid4 w (draws w)) /\
        durable w' =
          add_contact_rows
            (working w)
            {| cc_id := uuid4 w (draws w); cc_customer_id := customer_id;
               cc_first_name := None; cc_last_name := None |}
            {| cccm_id := uuid4 w (S (draws w));
               cccm_customer_contact_id := uuid4 w (draws w);
               cccm_type := ty; cccm_value := v |} /\
        working w' = durable w' in
      ((exists e, r = Raise e /\ durable w' = durable w) \/ created) /\
      (is_Some (ContactType_of_value ty) -> fresh_contact_ids w = true -> created)
  end.
Proof.
  rewrite get_customer_contact_comm_method_id_unfold. intros Hrun ty v matching.
  fold ty v in Hrun. rewrite contact_comm_join_product in Hrun. fold matching in Hrun.
  destruct matching as [|[cm cc] [|p' rows]] eqn:Hmatching.
  - split.
    + apply found_or_new_contact_atomic in Hrun as [Hfail | [-> ->]];
        [left; exact Hfail | right; repeat split].
    + intros Hty Hfresh.
      rewrite (found_or_new_contact_creates _ _ _ _ Hty Hfresh) in Hrun.
      injection Hrun as <- <-. repeat split.
  - assert (In (cm, cc) matching) as Hin by (rewrite Hmatching; left; reflexivity).
    apply filter_In in Hin as [_ Hcond]. simpl in Hcond.
    apply andb_true_iff in Hcond as [Hcond _].
    apply andb_true_iff in Hcond as [Hcond _].
    apply andb_true_iff in Hcond as [Hid Hcustomer].
    apply String.eqb_eq in Hid, Hcustomer.
    simpl in Hrun. unfold_monad. injection Hrun as <- <-.
    rewrite Hid. repeat split; auto.
  - simpl in Hrun. unfold_monad. injection Hrun as <- <-.
    split; [|reflexivity]. eexists. split; [reflexivity|]. constructor.
Qed.

End ContactResolution.

Lemma contact_find_or_create_witness :
  let w := Sample.boot Sample.seeded Sample.net_ok in
  let known :=
    get_customer_contact_comm_method_id
      "customer-1" " Phone " (JStr " +15551230001 ") w in
  let run :=
    get_customer_contact_comm_method_id
      "customer-1" " Phone " (JStr " +15559990000 ") w in
  known = (Return ("cccm-1", "contact-1"), w) /\
  fst run = Return ("uuid-i", "uuid-") /\
  customer_contacts (durable (snd run))
  = (customer_contacts Sample.seeded
     ++ [{| cc_id := "uuid-"; cc_customer_id := "customer-1";
            cc_first_name := None; cc_last_name := None |}])%list /\
  customer_contact_comm_methods (durable (snd run))
  = (customer_contact_comm_methods Sample.seeded
     ++ [{| cccm_id := "uuid-i"; cccm_customer_contact_id := "uuid-";
            cccm_type := "phone"; cccm_value := "+15559990000" |}])%list.
Proof.
  intros w known run. split.
  - pose proof (contact_find_or_create
                  "customer-1" " Phone " " +15551230001 " w (fst known) (snd known)
                  (surjective_pairing known)) as Hspec.
    cbv zeta in Hspec.
    set (matching := List.filter _ _) in Hspec. vm_compute in matching.
    subst matching. cbv beta iota in Hspec.
    destruct Hspec as (Hr & Hw & _).
    rewrite (surjective_pairing known), Hr, Hw. reflexivity.
  - pose proof (contact_find_or_create
                  "customer-1" " Phone " " +15559990000 " w (fst run) (snd run)
                  (surjective_pairing run)) as Hspec.
    cbv zeta in Hspec.
    set (matching := List.filter _ _) in Hspec. vm_compute in matching.
    subst matching. cbv beta iota in Hspec.
    destruct Hspec as [_ Hcreated].
    destruct Hcreated as (Hr & Hdurable & _).
    + exists phone. reflexivity.
    + reflexivity.
    + split; [exact Hr|]. rewrite Hdurable. split; reflexivity.
Defined.

Section SequentialCalls.
Context {rt : Runtime}.

Lemma rollback_clean (w : world) : working w = durable w -> rollback w = w.
Proof. destruct w. unfold rollback, with_working. simpl. intros ->. reflexivity. Qed.

(** Run back to back, the two steps of a call are the call itself, followed
    by the end of its session. *)
Lemma call_steps_are_the_call customer_id comm_type value w :
  working w = durable w ->
  run_schedule customer_id comm_type value [0; 0]%nat [CallStart] w
  = (let '(r, w') :=
       get_customer_contact_comm_method_id customer_id comm_type value w in
     ([CallDone r], rollback w')).
Proof.
  intros Hclean. simpl. unfold get_customer_contact_comm_method_id.
  unfold_monad. destruct (str_strip value) as [v|e]; simpl.
  - rewrite (rollback_clean w Hclean). rewrite (rollback_clean w Hclean).
    rewrite <- Hclean.
    destruct (found_or_new_contact _ _ _ _ w). reflexivity.
  - rewrite (rollback_clean w Hclean). reflexivity.
Qed.

(** A call that finds exactly one row returns it and changes nothing. *)
Lemma get_customer_contact_comm_method_id_found customer_id comm_type value w row :
  contact_comm_join (working w) customer_id
                    (PyStr.lower (PyStr.strip comm_type)) (PyStr.strip value) = [row] ->
  get_customer_contact_comm_method_id customer_id comm_type (JStr value) w
  = (Return row, w).
Proof.
  intros Hrows. rewrite get_customer_contact_comm_method_id_unfold, Hrows.
  reflexivity.
Qed.

Lemma run_in_sequence_found customer_id comm_type value w row n :
  contact_comm_join (working w) customer_id
                    (PyStr.lower (PyStr.strip comm_type)) (PyStr.strip value) = [row] ->
  run_in_sequence
    (get_customer_contact_comm_method_id customer_id comm_type (JStr value)) n w
  = (repeat (Return row) n, w).
Proof.
  intros Hrows. induction n as [|n IH]; simpl; [reflexivity|].
  rewrite (get_customer_contact_comm_method_id_found _ _ _ _ _ Hrows), IH.
  reflexivity.
Qed.

(** C2 as the code has it, for calls that do not overlap.  From a state
    with no matching row, a valid
    type and fresh ids, the first of [n+1] calls creates the contact and its
    comm method, every call returns the same pair of ids, and the tables end
    with exactly that one contact and one comm method added.  An INSERT
    refused because the generated contact id is already taken is raised to
    the caller as an integrity error, with nothing made durable. *)
Theorem sequential_calls_create_once
        (customer_id comm_type value : string) (w : world) (n : nat) :
  let ty := PyStr.lower (PyStr.strip comm_type) in
  let v := PyStr.strip value in
  let call := get_customer_contact_comm_method_id customer_id comm_type (JStr value) in
  contact_comm_join (working w) customer_id ty v = [] ->
  (is_Some (ContactType_of_value ty) ->
   fresh_contact_ids w = true ->
   run_in_sequence call (S n) w
   = (repeat (Return (uuid4 w (S (draws w)), uuid4 w (draws w))) (S n),
      after_contact_creation customer_id ty v w)) /\
  (id_in (uuid4 w (draws w)) (map cc_id (customer_contacts (working w))) = true ->
   exists w',
     call w = (Raise (IntegrityError (PrimaryKey "customer_contacts")), w') /\
     durable w' = durable w).
Proof.
  intros ty v call Hnone. split.
  - intros Hty Hfresh. simpl. unfold call at 1.
    rewrite get_customer_contact_comm_method_id_unfold. fold ty v.
    rewrite Hnone, (found_or_new_contact_creates _ _ _ _ Hty Hfresh).
    unfold call. rewrite run_in_sequence_found with (row := (uuid4 w (S (draws w)), uuid4 w (draws w))).
    + reflexivity.
    + apply fresh_contact_ids_spec in Hfresh as (Hc & Href & _).
      fold ty v. unfold after_contact_creation. simpl.
      apply join_after_creation; assumption.
  - intros Htaken. unfold call.
    rewrite get_customer_contact_comm_method_id_unfold. fold ty v. rewrite Hnone.
    unfold found_or_new_contact, add_CustomerContact, new_uuid, flush_error.
    unfold_monad. simpl.
    replace (existsb _ (customer_contacts (working w))) with true.
    + eexists. split; reflexivity.
    + symmetry. unfold id_in in Htaken.
      apply existsb_exists in Htaken as (x & Hx & Heq).
      apply in_map_iff in Hx as (c & <- & Hc).
      apply existsb_exists. exists c. split; [exact Hc|].
      rewrite String.eqb_sym. exact Heq.
Qed.

End SequentialCalls.

(** Two overlapping calls for a number nobody has written from before: both
    SELECTs run before either transaction.  Each call then inserts a contact
    and a comm method of its own; the calls return different ids and the
    database holds two contacts for the one number.  No constraint is
    violated, since [uq_contact_comm_type_value] includes the contact id,
    which differs. *)
Lemma interleaved_calls_create_twice :
  let w := Sample.boot Sample.seeded Sample.net_ok in
  let '(calls, w') :=
    run_schedule "customer-1" "phone" (JStr "+15559990000")
                 [0; 1; 0; 1]%nat [CallStart; CallStart] w in
  contact_comm_join (durable w) "customer-1" "phone" "+15559990000" = [] /\
  calls = [CallDone (Return ("uuid-i", "uuid-"));
           CallDone (Return ("uuid-iii", "uuid-ii"))] /\
  contact_comm_join (durable w') "customer-1" "phone" "+15559990000"
  = [("uuid-i", "uuid-"); ("uuid-iii", "uuid-ii")] /\
  length (customer_contacts (durable w'))
  = (length (customer_contacts (durable w)) + 2)%nat.
Proof. vm_compute. repeat split. Qed.

Lemma sequential_calls_create_once_witness :
  let w := Sample.boot Sample.seeded Sample.net_ok in
  run_in_sequence
    (get_customer_contact_comm_method_id "customer-1" "phone" (JStr "+15559990000")) 3 w
  = (repeat (Return ("uuid-i", "uuid-")) 3,
     after_contact_creation "customer-1" "phone" "+15559990000" w).
Proof.
  intros w.
  apply (proj1 (sequential_calls_create_once
                  "customer-1" "phone" "+15559990000" w 2 ltac:(reflexivity))).
  - eexists. reflexivity.
  - reflexivity.
Defined.

(** ** Conversation resolver *)

Section ConversationProperties.
Context {rt : Runtime}.

Lemma ltb_asym (a b : string) : String.ltb a b = true -> String.ltb b a = false.
Proof.
  unfold String.ltb. rewrite (String.compare_antisym a b).
  destruct (String.compare b a); simpl; congruence.
Qed.

Lemma ltb_total (a b : string) :
  String.ltb a b = false -> String.ltb b a = false -> a = b.
Proof.
  unfold String.ltb.
  destruct (String.compare a b) eqn:E; simpl; try congruence.
  - intros _ _. apply String.compare_eq_iff. exact E.
  - rewrite (String.compare_antisym a b) in E.
    destruct (String.compare b a); simpl in *; congruence.
Qed.

Lemma sorted_pair (a b : string) :
  PyStr.sorted [a; b] = if String.ltb b a then [b; a] else [a; b].
Proof. reflexivity. Qed.

Lemma sorted_pair_comm (a b : string) : PyStr.sorted [a; b] = PyStr.sorted [b; a].
Proof.
  rewrite !sorted_pair.
  destruct (String.ltb b a) eqn:Hba, (String.ltb a b) eqn:Hab; try reflexivity.
  - apply ltb_asym in Hba. congruence.
  - rewrite (ltb_total a b Hab Hba). reflexivity.
Qed.

Lemma participants_key_comm (a b : string) :
  participants_key a b = participants_key b a.
Proof. unfold participants_key. rewrite sorted_pair_comm. reflexivity. Qed.

Lemma participants_key_sorted (a b : string) :
  participants_key a b
  = if String.ltb b a then b +:+ "," +:+ a else a +:+ "," +:+ b.
Proof.
  unfold participants_key. rewrite sorted_pair.
  destruct (String.ltb b a); reflexivity.
Qed.

(** Both directions hand the pair to [participants_key] in the same order,
    customer first. *)
Lemma get_participants_key data message_direction comm_type w p w' :
  get_participants data message_direction comm_type w = (Return p, w') ->
  the_participants_key p = participants_key (customer_id p) (customer_contact_id p).
Proof.
  unfold get_participants. unfold_monad.
  destruct (get_customer_comm_method_id _ _ w) as [[[cm cid]|e] w1]; [|discriminate].
  destruct (get_customer_contact_comm_method_id _ _ _ w1) as [[[km kid]|e] w2];
    [|discriminate].
  intros [= <- _]. reflexivity.
Qed.

Lemma get_conversation_id_creates a b key w :
  conversations_with_key key (working w) = [] ->
  id_in (uuid4 w (draws w)) (map conv_id (conversations (working w))) = false ->
  get_conversation_id a b key w
  = (Return (uuid4 w (draws w)), after_conversation_creation a b key w).
Proof.
  unfold conversations_with_key. intros Hnone Hfresh.
  unfold get_conversation_id, select_conversations, add_Conversation, new_uuid,
    commit, flush_error.
  unfold_monad. simpl. rewrite Hnone. simpl.
  rewrite (existsb_key_false conv_id _ _ Hfresh). reflexivity.
Qed.

Lemma get_conversation_id_found a b key w row :
  conversations_with_key key (working w) = [row] ->
  get_conversation_id a b key w = (Return (conv_id row), w).
Proof.
  unfold conversations_with_key. intros Hone.
  unfold get_conversation_id, select_conversations. unfold_monad.
  rewrite Hone. reflexivity.
Qed.

Lemma run_in_sequence_conversation_found a b key w row n :
  conversations_with_key key (working w) = [row] ->
  run_in_sequence (get_conversation_id a b key) n w
  = (repeat (Return (conv_id row)) n, w).
Proof.
  intros Hone. induction n as [|n IH]; simpl; [reflexivity|].
  rewrite (get_conversation_id_found _ _ _ _ _ Hone), IH. reflexivity.
Qed.

(** C6.  The participants key of a pair is its two ids in code-point
    order joined by a comma, the same in whichever order the ids are given,
    and both message directions compute it from the same pair.  When no
    conversation has the key yet (and the generated id is free), the first
    resolution creates the row and returns its id; every later resolution
    of the pair, in either argument order, finds that row, returns the same
    id and changes nothing. *)
Theorem conversation_resolution_idempotent (a b : string) (w : world) :
  let key := participants_key a b in
  let id := uuid4 w (draws w) in
  let w1 := after_conversation_creation a b key w in
  conversations_with_key key (working w) = [] ->
  id_in id (map conv_id (conversations (working w))) = false ->
  participants_key b a = key /\
  key = (if String.ltb b a then b +:+ "," +:+ a else a +:+ "," +:+ b) /\
  (forall data message_direction comm_type w0 p w0',
      get_participants data message_direction comm_type w0 = (Return p, w0') ->
      the_participants_key p
      = participants_key (customer_id p) (customer_contact_id p)) /\
  get_conversation_id a b key w = (Return id, w1) /\
  conversations_with_key key (durable w1)
  = [{| conv_id := id; conv_customer_id := a;
        conv_customer_contact_id := b; conv_participants_key := key |}] /\
  (forall n,
      run_in_sequence (get_conversation_id a b (participants_key a b)) n w1
      = (repeat (Return id) n, w1)) /\
  (forall n,
      run_in_sequence (get_conversation_id b a (participants_key b a)) n w1
      = (repeat (Return id) n, w1)).
Proof.
  intros key id w1 Hnone Hfresh.
  assert (conversations_with_key key (working w1)
          = [{| conv_id := id; conv_customer_id := a;
                conv_customer_contact_id := b; conv_participants_key := key |}])
    as Hone.
  { unfold conversations_with_key in *. simpl.
    rewrite List.filter_app, Hnone. simpl. rewrite String.eqb_refl. reflexivity. }
  split; [symmetry; apply participants_key_comm|].
  split; [apply participants_key_sorted|].
  split; [intros; eapply get_participants_key; eassumption|].
  split; [apply get_conversation_id_creates; assumption|].
  split; [exact Hone|].
  split; intros n.
  - apply (run_in_sequence_conversation_found a b key w1 _ n Hone).
  - rewrite <- (participants_key_comm a b).
    apply (run_in_sequence_conversation_found b a key w1 _ n Hone).
Qed.

End ConversationProperties.

Lemma conversation_resolution_idempotent_witness :
  let w := Sample.boot Sample.seeded Sample.net_ok in
  let w1 :=
    after_conversation_creation "customer-1" "contact-1" "contact-1,customer-1" w in
  participants_key "customer-1" "contact-1" = "contact-1,customer-1" /\
  participants_key "contact-1" "customer-1" = "contact-1,customer-1" /\
  get_conversation_id "customer-1" "contact-1" "contact-1,customer-1" w
  = (Return "uuid-", w1) /\
  run_in_sequence
    (get_conversation_id "contact-1" "customer-1" "contact-1,customer-1") 3 w1
  = (repeat (Return "uuid-") 3, w1).
Proof.
  intros w w1.
  destruct (conversation_resolution_idempotent "customer-1" "contact-1" w)
    as (Hcomm & _ & _ & Hfirst & _ & _ & Hlater).
  - reflexivity.
  - reflexivity.
  - split; [reflexivity|]. split; [exact Hcomm|].
    split; [exact Hfirst | exact (Hlater 3%nat)].
Defined.

(** ** Orchestrator *)

Section OrchestratorProperties.
Context {rt : Runtime}.

Lemma get_customer_comm_method_id_pure comm_type value w r w' :
  get_customer_comm_method_id comm_type value w = (r, w') -> w' = w.
Proof.
  unfold get_customer_comm_method_id, select_customer_comm_methods. unfold_monad.
  destruct (str_strip value) as [v|e]; simpl; [|intros [= _ <-]; reflexivity].
  destruct (map _ _) as [|row [|row' rows]]; intros [= _ <-]; reflexivity.
Qed.

Lemma found_or_new_contact_messages ms customer_id ty v rows w r w' :
  holds_messages ms w ->
  found_or_new_contact customer_id ty v rows w = (r, w') ->
  holds_messages ms w'.
Proof.
  intros [Hd Hw].
  destruct rows as [|row [|row' rows]]; simpl;
    [|unfold_monad; intros [= _ <-]; split; assumption ..].
  unfold add_CustomerContact, add_CustomerContactCommMethod, new_uuid, commit,
    flush_error, holds_messages.
  unfold_monad. simpl.
  destruct (existsb _ (customer_contacts (working w)));
    [intros [= _ <-]; simpl; auto|].
  simpl. destruct (ContactType_of_value ty);
    [|intros [= _ <-]; simpl; auto].
  simpl.
  destruct (existsb _ (customer_contact_comm_methods (working w)));
    [intros [= _ <-]; simpl; auto|].
  destruct (existsb _ (customer_contact_comm_methods (working w)));
    intros [= _ <-]; simpl; auto.
Qed.

Lemma get_customer_contact_comm_method_id_messages ms customer_id comm_type value
      w r w' :
  holds_messages ms w ->
  get_customer_contact_comm_method_id customer_id comm_type value w = (r, w') ->
  holds_messages ms w'.
Proof.
  intros Hms. unfold get_customer_contact_comm_method_id,
    select_customer_contact_comm_methods.
  unfold_monad. destruct (str_strip value) as [v|e]; simpl.
  - apply found_or_new_contact_messages. exact Hms.
  - intros [= _ <-]. exact Hms.
Qed.

Lemma get_participants_messages ms data message_direction comm_type w r w' :
  holds_messages ms w ->
  get_participants data message_direction comm_type w = (r, w') ->
  holds_messages ms w'.
Proof.
  intros Hms. unfold get_participants. unfold_monad.
  destruct (get_customer_comm_method_id _ _ w) as [[[cm cid]|e] w1] eqn:Hcust;
    apply get_customer_comm_method_id_pure in Hcust; subst w1;
    [|intros [= _ <-]; exact Hms].
  destruct (get_customer_contact_comm_method_id _ _ _ w) as [[[km kid]|e] w2] eqn:Hcont;
    apply (get_customer_contact_comm_method_id_messages ms) in Hcont; try exact Hms;
    intros [= _ <-]; exact Hcont.
Qed.

Lemma outbound_resolve_messages ms data comm_type payload_fields w r w' :
  holds_messages ms w ->
  outbound_resolve data comm_type payload_fields w = (r, w') ->
  holds_messages ms w'.
Proof.
  intros Hms. unfold outbound_resolve. unfold_monad.
  destruct (validate_payload data payload_fields None);
    [apply get_participants_messages; exact Hms | intros [= _ <-]; exact Hms].
Qed.

(** The retry wrapper never touches the database. *)
Lemma retry_loop_tables api_url data atts w r w' :
  retry_loop (send_message api_url data) atts w = (r, w') ->
  durable w' = durable w /\ working w' = working w.
Proof.
  revert w. induction atts as [|a atts IH]; simpl; intros w.
  - unfold_monad. intros [= _ <-]. auto.
  - unfold send_message at 1.
    destruct (network w (posts w)) as [e|].
    + destruct (is_TimeoutError e).
      * unfold bind, sleep. simpl. intros Hrun.
        apply IH in Hrun. simpl in Hrun. exact Hrun.
      * destruct (is_Exception e); intros [= _ <-]; simpl; auto.
    + intros [= _ <-]. simpl. auto.
Qed.

Lemma api_retry_with_backoff_messages ms api_url data w r w' :
  holds_messages ms w ->
  api_retry_with_backoff (send_message api_url data) w = (r, w') ->
  holds_messages ms w'.
Proof.
  intros [Hd Hw] Hrun. apply retry_loop_tables in Hrun as [Hd' Hw'].
  unfold holds_messages. rewrite Hd', Hw'. auto.
Qed.

(** C1.  An outbound request (SMS or email) that starts with a clean
    session.  If validation and identity resolution went through and
    delivery then fails -- a non-timeout error, or timeouts on all
    [MAX_RETRIES] attempts -- the answer is the "failed to send" body with
    status 500 and neither the database nor the session has gained a
    Message row.  Conversely, whenever the messages changed, the retry
    wrapper had returned [True] first. *)
Theorem delivery_before_record
        (data : payload) (comm_type : string) (payload_fields : list payload_field)
        (outbound_url : string) (w : world) (ms : list Message)
        (r : result response) (w' : world) :
  messages (durable w) = ms ->
  messages (working w) = ms ->
  process_outbound_message data comm_type payload_fields outbound_url w = (r, w') ->
  (forall p w1 n,
      outbound_resolve data comm_type payload_fields w = (Return p, w1) ->
      delivery_failure (network w1) (posts w1) n ->
      r = Return (MessageFailedToSend, 500) /\
      messages (durable w') = ms /\ messages (working w') = ms) /\
  (messages (durable w') <> ms \/ messages (working w') <> ms ->
   exists p w1 w2,
     outbound_resolve data comm_type payload_fields w = (Return p, w1) /\
     api_retry_with_backoff (send_message outbound_url data) w1 = (Return true, w2)).
Proof.
  intros Hd Hw Hrun.
  assert (holds_messages ms w) as Hms by (split; assumption).
  unfold process_outbound_message, process_outbound_body in Hrun.
  unfold try_except, bind in Hrun.
  destruct (outbound_resolve data comm_type payload_fields w) as [[p|e] w1] eqn:Hres;
    apply (outbound_resolve_messages ms) in Hres as Hms1; try exact Hms.
  2:{ assert (w' = w1) as ->
        by (destruct (is_Exception e); unfold ret in Hrun; congruence).
      split; [intros ? ? ? [=]|].
      destruct Hms1 as [Hd1 Hw1]. intros [Hne | Hne]; contradiction. }
  destruct (api_retry_with_backoff (send_message outbound_url data) w1)
    as [[sent|e] w2] eqn:Hsend;
    apply (api_retry_with_backoff_messages ms) in Hsend as Hms2; try exact Hms1.
  2:{ assert (w' = w2) as ->
        by (destruct (is_Exception e); unfold ret in Hrun; congruence).
      split.
      - intros p' w1' n [= <- <-] Hfail.
        destruct (retry_failure outbound_url data w1 n Hfail) as (w3 & Hrun3 & _).
        congruence.
      - destruct Hms2 as [Hd2 Hw2]. intros [Hne | Hne]; contradiction. }
  destruct sent; simpl in Hrun.
  - split.
    + intros p' w1' n [= <- <-] Hfail.
      destruct (retry_failure outbound_url data w1 n Hfail) as (w3 & Hrun3 & _).
      congruence.
    + intros _. exists p, w1, w2.
      split; [first [reflexivity | exact Hres] | exact Hsend].
  - unfold ret in Hrun. injection Hrun as <- <-.
    destruct Hms2 as [Hd2 Hw2].
    split; [intros; auto|]. intros [Hne | Hne]; contradiction.
Qed.

(** C8 as the code has it.  A request that fails with an ambiguous-identity
    error is answered with status 400, in the error body that names the
    exception: the same answer a not-found error or a validation abort
    gets.  This holds for inbound and outbound requests alike. *)
Theorem resolution_errors_answer_400
        (data : payload) (comm_type : string) (payload_fields : list payload_field)
        (optional_fields : option (list string)) (outbound_url : string)
        (w : world) (e : exn) (w1 : world) :
  AmbiguousIdentity e \/ NotFound e \/ (exists d, e = HTTPException 400 d) ->
  (process_inbound_body data comm_type payload_fields optional_fields w
   = (Raise e, w1) ->
   process_inbound_message data comm_type payload_fields optional_fields w
   = (Return (ErrorProcessing "inbound" comm_type e, 400), w1)) /\
  (process_outbound_body data comm_type payload_fields outbound_url w
   = (Raise e, w1) ->
   process_outbound_message data comm_type payload_fields outbound_url w
   = (Return (ErrorProcessing "outbound" comm_type e, 400), w1)).
Proof.
  intros Hclass.
  assert (is_Exception e = true) as Hex.
  { destruct Hclass as [Ha | [Hn | [d ->]]]; [destruct Ha | destruct Hn |];
      reflexivity. }
  unfold process_inbound_message, process_outbound_message, try_except.
  split; intros ->; rewrite Hex; reflexivity.
Qed.

End OrchestratorProperties.

Lemma delivery_before_record_witness :
  let w := Sample.boot Sample.seeded Sample.net_rejects in
  let run :=
    process_outbound_message
      Sample.outbound_sms_hello "phone"
      (without_field "messaging_provider_id" SMS_PAYLOAD_FIELDS) SMS_OUTBOUND_URL w in
  fst run = Return (MessageFailedToSend, 500) /\
  messages (durable (snd run)) = [] /\ messages (working (snd run)) = [].
Proof.
  intros w run.
  destruct (delivery_before_record
              Sample.outbound_sms_hello "phone"
              (without_field "messaging_provider_id" SMS_PAYLOAD_FIELDS)
              SMS_OUTBOUND_URL w [] (fst run) (snd run)) as [Hfail _].
  - reflexivity.
  - reflexivity.
  - unfold run. apply surjective_pairing.
  - eapply (Hfail _ _ 1%nat).
    + vm_compute. reflexivity.
    + apply (failure_fatal _ _ 0 (RequestException "500 Server Error")).
      * unfold MAX_RETRIES. lia.
      * intros j Hj. lia.
      * reflexivity.
      * reflexivity.
      * reflexivity.
Defined.

(** Status 400, not 500, for an ambiguous identity: an inbound SMS to a
    number that two customers have both registered. *)
Lemma ambiguous_identity_answered_400 :
  let w := Sample.boot Sample.shared_number Sample.net_ok in
  let e := ValueError (customer_comm_multiple "+12155550000") in
  AmbiguousIdentity e /\
  fst (process_inbound_body Sample.inbound_sms_hi "phone" SMS_PAYLOAD_FIELDS None w)
  = Raise e /\
  fst (inbound_sms (Some Sample.inbound_sms_hi) w)
  = Return (ErrorProcessing "inbound" "phone" e, 400) /\
  (forall resp, fst (inbound_sms (Some Sample.inbound_sms_hi) w) = Return resp ->
                status resp <> 500).
Proof.
  intros w e. split; [constructor|].
  split; [vm_compute; reflexivity|].
  assert (fst (inbound_sms (Some Sample.inbound_sms_hi) w)
          = Return (ErrorProcessing "inbound" "phone" e, 400)) as Hrun
      by (vm_compute; reflexivity).
  split; [exact Hrun|].
  intros resp Hresp. rewrite Hrun in Hresp. injection Hresp as <-.
  unfold status. simpl. lia.
Qed.

Lemma resolution_errors_answer_400_witness :
  let w := Sample.boot Sample.shared_number Sample.net_ok in
  process_inbound_message Sample.inbound_sms_hi "phone" SMS_PAYLOAD_FIELDS None w
  = (Return (ErrorProcessing
               "inbound" "phone" (ValueError (customer_comm_multiple "+12155550000")),
             400), w).
Proof.
  intros w.
  apply (proj1 (resolution_errors_answer_400
                  Sample.inbound_sms_hi "phone" SMS_PAYLOAD_FIELDS None SMS_OUTBOUND_URL
                  w (ValueError (customer_comm_multiple "+12155550000")) w
                  (or_introl (Ambiguous_customer_comm "+12155550000")))).
  vm_compute. reflexivity.
Defined.

(** ** The one-of rule for email *)

Section EmailContent.
Context {rt : Runtime}.

(** The inbound route enforces the rule: without body and attachments the
    request is answered 400 before anything is looked up or stored. *)
Lemma inbound_email_requires_content (data : payload) (w : world) :
  dict_get data "body" = JNull ->
  dict_get data "attachments" = JNull ->
  inbound_email (Some data) w
  = (Return
       (ErrorProcessing
          "inbound" "email"
          (HTTPException
             400
             "one of the following fields must be provided in payload: body, attachments"),
        400),
     rollback w).
Proof.
  intros Hbody Hatt.
  unfold inbound_email, teardown_appcontext, process_inbound_message,
    process_inbound_body, try_except, validate_payload.
  unfold_monad.
  assert (forall k, k <> "type" ->
                    dict_get (<["type" := JStr "email"]> data) k = dict_get data k)
    as Hother.
  { intros k Hk. unfold dict_get. rewrite lookup_insert_ne by congruence. reflexivity. }
  assert (dict_get (<["type" := JStr "email"]> data) "type" = JStr "email") as ->.
  { unfold dict_get. rewrite lookup_insert_eq. reflexivity. }
  simpl. rewrite !Hother by discriminate. rewrite Hbody, Hatt. reflexivity.
Qed.

End EmailContent.

(** C9, on the outbound route.  An outbound email with neither body nor
    attachments passes validation: [process_outbound_message] calls
    [validate_payload] without the one-of list.  The message is delivered,
    stored with an empty body and no attachments, and answered 200. *)
Theorem outbound_email_accepts_no_content :
  let w := Sample.boot Sample.seeded Sample.net_ok in
  let '(r, w') := outbound_email (Some Sample.email_without_content) w in
  dict_get Sample.email_without_content "body" = JNull /\
  dict_get Sample.email_without_content "attachments" = JNull /\
  r = Return (MessageSent "uuid-i", 200) /\
  attempts (events w') = 1%nat /\
  map (fun m => (msg_id m, msg_body m, msg_attachments m)) (messages (durable w'))
  = [("uuid-i", JNull, None)] /\
  fst (inbound_email (Some Sample.email_without_content) w)
  = Return
      (ErrorProcessing
         "inbound" "email"
         (HTTPException
            400
            "one of the following fields must be provided in payload: body, attachments"),
       400).
Proof. vm_compute. repeat split. Qed.

(** * Further properties *)

(** ** Validation *)

Section ValidationFurther.
Context {rt : Runtime}.

Lemma replace_char_absent c by_ s :
  PyStr.contains_char c s = false -> PyStr.replace_char c by_ s = s.
Proof.
  induction s as [|d s IH]; simpl; [reflexivity|].
  destruct (Ascii.eqb c d); [discriminate|]. intros Hs. rewrite (IH Hs). reflexivity.
Qed.

Lemma append_cons (x : ascii) (a b : string) : String x a +:+ b = String x (a +:+ b).
Proof. reflexivity. Qed.

Lemma append_assoc (a b c : string) : (a +:+ b) +:+ c = a +:+ (b +:+ c).
Proof.
  induction a as [|x a IH]; [reflexivity|].
  rewrite !append_cons, IH. reflexivity.
Qed.

Lemma replace_char_app c by_ s1 s2 :
  PyStr.replace_char c by_ (s1 +:+ s2)
  = PyStr.replace_char c by_ s1 +:+ PyStr.replace_char c by_ s2.
Proof.
  induction s1 as [|d s1 IH]; [reflexivity|].
  rewrite append_cons. simpl.
  destruct (Ascii.eqb c d); rewrite IH;
    [rewrite append_assoc | rewrite append_cons]; reflexivity.
Qed.

Lemma contains_char_app c s1 s2 :
  PyStr.contains_char c (s1 +:+ s2)
  = PyStr.contains_char c s1 || PyStr.contains_char c s2.
Proof.
  induction s1 as [|d s1 IH]; [reflexivity|].
  rewrite append_cons. simpl.
  destruct (Ascii.eqb c d); [reflexivity | exact IH].
Qed.

(** What the type check of one present value accepts. *)
Lemma check_field_type_accepts field_name expected value :
  check_field_type field_name expected value = None -> well_typed expected value.
Proof.
  unfold check_field_type, well_typed. destruct expected.
  - destruct value; simpl; try discriminate. intros _. eexists. reflexivity.
  - destruct value as [| | | |s| |]; try discriminate.
    destruct (PyStr.contains_char "Z" s) eqn:HZ.
    + destruct (fromisoformat (PyStr.replace_char "Z" "+00:00" s)) eqn:Hp;
        [|discriminate].
      intros _. exists s. split; [reflexivity|]. rewrite Hp. eexists. reflexivity.
    + destruct (fromisoformat s) eqn:Hp; [|discriminate].
      intros _. exists s. split; [reflexivity|].
      rewrite (replace_char_absent _ _ _ HZ), Hp. eexists. reflexivity.
  - destruct value as [| | | | |l|]; simpl; try discriminate.
    destruct (forallb isinstance_str l) eqn:Hl; [|discriminate].
    intros _. exists l. split; [reflexivity | exact Hl].
Qed.

Lemma payload_errors_nil message_type data payload_fields item :
  payload_errors message_type data payload_fields = [] ->
  In item payload_fields ->
  check_payload_field message_type data item = [].
Proof.
  unfold payload_errors. intros Hnil Hin.
  induction payload_fields as [|f fs IH]; [contradiction|].
  simpl in Hnil. apply app_eq_nil in Hnil as [Hf Hfs].
  destruct Hin as [<- | Hin]; [exact Hf | exact (IH Hfs Hin)].
Qed.

(** What a successful validation has checked, field by field. *)
Lemma validate_payload_checked data payload_fields one_of_fields :
  validate_payload data payload_fields one_of_fields = Return tt ->
  exists t,
    dict_get data "type" = JStr t /\
    In (PyStr.lower t) ["sms"; "mms"; "email"] /\
    forall item, In item payload_fields ->
      let value := dict_get data (pf_field item) in
      (pf_required item = true -> value <> JNull) /\
      (PyStr.lower t = "sms" -> pf_field item = "body" -> value <> JNull) /\
      (PyStr.lower t = "mms" -> pf_field item = "attachments" -> value <> JNull) /\
      (value <> JNull -> well_typed (pf_type item) value).
Proof.
  unfold validate_payload.
  destruct (dict_get data "type") as [| | | |t| |] eqn:Htype; try discriminate.
  destruct (existsb _ _) eqn:Hsupported; simpl; [|discriminate].
  destruct (if String.eqb (PyStr.lower t) "email" then _ else _); [|discriminate].
  destruct (payload_errors (PyStr.lower t) data payload_fields) eqn:Herrors;
    [|discriminate].
  intros _. exists t. split; [reflexivity|]. split.
  { apply existsb_exists in Hsupported as (x & Hx & Heq).
    apply String.eqb_eq in Heq. rewrite Heq. exact Hx. }
  intros item Hitem.
  pose proof (payload_errors_nil _ _ _ _ Herrors Hitem) as Hfield.
  unfold check_payload_field in Hfield.
  destruct (dict_get data (pf_field item)) eqn:Hvalue; simpl in Hfield.
  1:{ (* the value is None: the field was not required *)
      destruct (String.eqb (PyStr.lower t) "sms" && String.eqb (pf_field item) "body")
               eqn:Hsms; [discriminate|].
      destruct (String.eqb (PyStr.lower t) "mms"
                && String.eqb (pf_field item) "attachments") eqn:Hmms; [discriminate|].
      destruct (pf_required item); [discriminate|].
      repeat split; try congruence.
      - intros Ht Hf. rewrite Ht, Hf in Hsms. discriminate.
      - intros Ht Hf. rewrite Ht, Hf in Hmms. discriminate. }
  all: repeat split; try discriminate; intros _;
    apply (check_field_type_accepts (pf_field item));
    destruct (check_field_type (pf_field item) (pf_type item) _);
    [discriminate | reflexivity].
Qed.

(** X1.  A payload that passes validation has a string type that is sms, mms
    or email up to case; every field of the list that is required is present;
    body is present when the type is sms and attachments when it is mms; and
    every present field has its declared type: a string, a list of strings,
    or a string that [fromisoformat] accepts once each Z is replaced by
    +00:00. *)
Theorem validate_payload_sound (data : payload) (payload_fields : list payload_field)
        (one_of_fields : option (list string)) :
  validate_payload data payload_fields one_of_fields = Return tt ->
  exists t,
    dict_get data "type" = JStr t /\
    In (PyStr.lower t) ["sms"; "mms"; "email"] /\
    forall item, In item payload_fields ->
      let value := dict_get data (pf_field item) in
      (pf_required item = true -> value <> JNull) /\
      (PyStr.lower t = "sms" -> pf_field item = "body" -> value <> JNull) /\
      (PyStr.lower t = "mms" -> pf_field item = "attachments" -> value <> JNull) /\
      (value <> JNull -> well_typed (pf_type item) value).
Proof. apply validate_payload_checked. Qed.

End ValidationFurther.

Lemma validate_payload_sound_witness :
  exists t,
    dict_get Sample.inbound_sms_hi "type" = JStr t /\
    In (PyStr.lower t) ["sms"; "mms"; "email"].
Proof.
  destruct (validate_payload_sound (rt := Sample.runtime)
              Sample.inbound_sms_hi SMS_PAYLOAD_FIELDS None)
    as (t & Htype & Hsupported & _).
  - vm_compute. reflexivity.
  - exists t. split; assumption.
Defined.

Section ValidationOutcomes.
Context {rt : Runtime}.




Lemma one_of_provided_existsb data fields :
  one_of_provided data fields = existsb (fun f => has_content (dict_get data f)) fields.
Proof.
  induction fields as [|f fs IH]; simpl; [reflexivity|].
  unfold has_content at 1.
  destruct (dict_get data f); simpl; try reflexivity; try exact IH.
  destruct (String.eqb (PyStr.strip s) ""); simpl; [exact IH | reflexivity].
Qed.

(** X4.  The one-of rule over a non-empty list of fields is met exactly when
    one of them holds a value that is not [None] and, if a string, is not
    blank: an empty list of attachments counts, a body of spaces does not.
    When it is not met the check aborts with status 400 and a description
    that lists the fields. *)
Theorem check_one_of_fields_rule (data : payload) (f : string) (fs : list string) :
  (check_one_of_fields data (Some (f :: fs)) = Return tt <->
   exists g, In g (f :: fs) /\
             dict_get data g <> JNull /\
             (forall s, dict_get data g = JStr s -> PyStr.strip s <> "")) /\
  (check_one_of_fields data (Some (f :: fs)) <> Return tt ->
   check_one_of_fields data (Some (f :: fs))
   = Raise (HTTPException
              400
              ("one of the following fields must be provided in payload: "
               +:+ PyStr.join ", " (f :: fs)))).
Proof.
  assert (forall v, has_content v = true <->
                    v <> JNull /\ (forall s, v = JStr s -> PyStr.strip s <> ""))
    as Hcontent.
  { intros v. unfold has_content. destruct v; simpl;
      try (split; [intros _; split; [discriminate | intros ? [=]] | reflexivity]).
    - split; [discriminate | intros [Hv _]; congruence].
    - rewrite negb_true_iff. split.
      + intros Hs. split; [discriminate|]. intros s' [= <-] Heq.
        rewrite Heq in Hs. discriminate.
      + intros [_ Hs]. apply not_true_is_false. intros Heq.
        apply String.eqb_eq in Heq. exact (Hs s eq_refl Heq). }
  unfold check_one_of_fields. rewrite one_of_provided_existsb.
  destruct (existsb _ (f :: fs)) eqn:Hex.
  - split; [|congruence]. split; [intros _|reflexivity].
    apply existsb_exists in Hex as (g & Hg & Hc).
    exists g. split; [exact Hg|]. apply Hcontent. exact Hc.
  - split; [|reflexivity]. split; [discriminate|].
    intros (g & Hg & Hc). apply Hcontent in Hc.
    assert (existsb (fun f0 => has_content (dict_get data f0)) (f :: fs) = true)
      as Htrue by (apply existsb_exists; eauto).
    congruence.
Qed.

(** X3.  A timestamp written with a final Z is treated as the same text
    ending in +00:00: the type check gives the same verdict for both, and
    [create_message] run on payloads that differ only in that spelling does
    the same thing, storing the same parsed timestamp. *)
Theorem timestamp_Z_is_utc (p : string) :
  (forall field_name,
      check_field_type field_name T_datetime (JStr (p +:+ "Z"))
      = check_field_type field_name T_datetime (JStr (p +:+ "+00:00"))) /\
  (forall data conversation_id customer_comm_method_id contact_comm_method_id
          message_direction comm_type w,
      create_message (<["timestamp" := JStr (p +:+ "Z")]> data)
                     conversation_id customer_comm_method_id contact_comm_method_id
                     message_direction comm_type w
      = create_message (<["timestamp" := JStr (p +:+ "+00:00")]> data)
                       conversation_id customer_comm_method_id contact_comm_method_id
                       message_direction comm_type w).
Proof.
  assert (PyStr.replace_char "Z" "+00:00" (p +:+ "Z")
          = PyStr.replace_char "Z" "+00:00" (p +:+ "+00:00")) as Hsame.
  { rewrite !replace_char_app. reflexivity. }
  split.
  - intros field_name. unfold check_field_type.
    rewrite !contains_char_app. simpl. rewrite orb_true_r, orb_false_r.
    destruct (PyStr.contains_char "Z" p) eqn:HZ.
    + rewrite Hsame. reflexivity.
    + rewrite Hsame, replace_char_app, (replace_char_absent _ _ _ HZ). reflexivity.
  - intros data conversation_id customer_comm_method_id contact_comm_method_id
           message_direction comm_type w.
    assert (forall v k, k <> "timestamp" ->
                        dict_get (<["timestamp" := v]> data) k = dict_get data k)
      as Hother.
    { intros v k Hk. unfold dict_get. rewrite lookup_insert_ne by congruence.
      reflexivity. }
    assert (forall v, dict_get (<["timestamp" := v]> data) "timestamp" = v) as Hts.
    { intros v. unfold dict_get. rewrite lookup_insert_eq. reflexivity. }
    unfold create_message.
    rewrite !Hts, Hsame.
    rewrite !(Hother _ "type"), !(Hother _ "body"), !(Hother _ "attachments")
      by discriminate.
    destruct (String.eqb comm_type "phone");
      rewrite !Hother by discriminate; reflexivity.
Qed.

End ValidationOutcomes.


(** ** Lookup keys *)

Lemma isspace_lower_char (c : ascii) :
  PyStr.isspace (PyStr.lower_char c) = PyStr.isspace c.
Proof. destruct c as [[] [] [] [] [] [] [] []]; reflexivity. Qed.

Lemma lower_char_idem (c : ascii) :
  PyStr.lower_char (PyStr.lower_char c) = PyStr.lower_char c.
Proof. destruct c as [[] [] [] [] [] [] [] []]; reflexivity. Qed.

Lemma lower_idem (s : string) : PyStr.lower (PyStr.lower s) = PyStr.lower s.
Proof.
  induction s as [|c s IH]; simpl; [reflexivity|].
  rewrite lower_char_idem, IH. reflexivity.
Qed.

Lemma lstrip_lower (s : string) :
  PyStr.lstrip (PyStr.lower s) = PyStr.lower (PyStr.lstrip s).
Proof.
  induction s as [|c s IH]; simpl; [reflexivity|].
  rewrite isspace_lower_char. destruct (PyStr.isspace c); [exact IH | reflexivity].
Qed.

Lemma rstrip_lower (s : string) :
  PyStr.rstrip (PyStr.lower s) = PyStr.lower (PyStr.rstrip s).
Proof.
  induction s as [|c s IH]; simpl; [reflexivity|].
  rewrite IH, isspace_lower_char.
  destruct (PyStr.rstrip s); simpl; [destruct (PyStr.isspace c)|]; reflexivity.
Qed.

Lemma strip_lower (s : string) :
  PyStr.strip (PyStr.lower s) = PyStr.lower (PyStr.strip s).
Proof. unfold PyStr.strip. rewrite lstrip_lower, rstrip_lower. reflexivity. Qed.

Lemma lstrip_starts_clean (s : string) : starts_clean (PyStr.lstrip s).
Proof.
  induction s as [|c s IH]; simpl; [exact I|].
  destruct (PyStr.isspace c) eqn:Hc; [exact IH | exact Hc].
Qed.

Lemma lstrip_clean (s : string) : starts_clean s -> PyStr.lstrip s = s.
Proof. destruct s as [|c s]; simpl; [reflexivity|]. intros ->. reflexivity. Qed.

Lemma rstrip_starts_clean (s : string) : starts_clean s -> starts_clean (PyStr.rstrip s).
Proof.
  destruct s as [|c s]; simpl; [trivial|]. intros Hc.
  destruct (PyStr.rstrip s); [rewrite Hc|]; exact Hc.
Qed.

Lemma rstrip_idem (s : string) : PyStr.rstrip (PyStr.rstrip s) = PyStr.rstrip s.
Proof.
  induction s as [|c s IH]; simpl; [reflexivity|].
  destruct (PyStr.rstrip s) as [|d r] eqn:Hr.
  - destruct (PyStr.isspace c) eqn:Hc; simpl; [reflexivity|]. rewrite Hc. reflexivity.
  - change (PyStr.rstrip (String c (String d r)))
      with (match PyStr.rstrip (String d r) with
            | EmptyString =>
                if PyStr.isspace c then EmptyString else String c EmptyString
            | r0 => String c r0
            end).
    rewrite IH. reflexivity.
Qed.

Lemma strip_idem (s : string) : PyStr.strip (PyStr.strip s) = PyStr.strip s.
Proof.
  unfold PyStr.strip.
  rewrite (lstrip_clean (PyStr.rstrip (PyStr.lstrip s)))
    by (apply rstrip_starts_clean, lstrip_starts_clean).
  apply rstrip_idem.
Qed.

Lemma normalised_type_idem (comm_type : string) :
  PyStr.lower (PyStr.strip (PyStr.lower (PyStr.strip comm_type)))
  = PyStr.lower (PyStr.strip comm_type).
Proof. rewrite strip_lower, lower_idem, strip_idem. reflexivity. Qed.

Section LookupKeys.
Context {rt : Runtime}.

(** X5.  Both identity lookups see their key only through its normal form:
    the type trimmed and lower-cased, the value trimmed.  Calling them with
    the raw key or with the normalised key is the same computation, so
    surrounding white space and the case of the type never change which
    identity is found or created. *)
Theorem lookups_normalise_their_key (comm_type value : string) (w : world) :
  get_customer_comm_method_id comm_type (JStr value) w
  = get_customer_comm_method_id
      (PyStr.lower (PyStr.strip comm_type)) (JStr (PyStr.strip value)) w /\
  (forall customer_id,
      get_customer_contact_comm_method_id customer_id comm_type (JStr value) w
      = get_customer_contact_comm_method_id
          customer_id (PyStr.lower (PyStr.strip comm_type))
          (JStr (PyStr.strip value)) w).
Proof.
  unfold get_customer_comm_method_id, get_customer_contact_comm_method_id, str_strip.
  rewrite normalised_type_idem, strip_idem. split; reflexivity.
Qed.

End LookupKeys.

(** ** Contacts *)

Section ContactFurther.
Context {rt : Runtime}.

(** X6.  The contact lookup is scoped to the customer: a pair
    [(comm_method_id, contact_id)] is among its rows exactly when a stored
    contact comm method with that id has the asked type and value and
    belongs to a stored contact, with that id, of the asked customer.  A
    comm method of another customer's contact, or one whose contact row is
    missing, is never returned. *)
Theorem contact_lookup_is_scoped (t : tables) (customer_id ty v comm_id contact_id : string) :
  In (comm_id, contact_id) (contact_comm_join t customer_id ty v) <->
  exists cm cc,
    In cm (customer_contact_comm_methods t) /\ In cc (customer_contacts t) /\
    cccm_id cm = comm_id /\ cccm_customer_contact_id cm = contact_id /\
    cc_id cc = contact_id /\ cc_customer_id cc = customer_id /\
    cccm_type cm = ty /\ cccm_value cm = v.
Proof.
  unfold contact_comm_join. rewrite in_flat_map. split.
  - intros (cm & Hcm & Hin). apply in_flat_map in Hin as (cc & Hcc & Hin).
    destruct (String.eqb (cc_id cc) (cccm_customer_contact_id cm)) eqn:E1;
      [|contradiction].
    destruct (String.eqb (cc_customer_id cc) customer_id) eqn:E2; [|contradiction].
    destruct (String.eqb (cccm_type cm) ty) eqn:E3; [|contradiction].
    destruct (String.eqb (cccm_value cm) v) eqn:E4; [|contradiction].
    simpl in Hin. destruct Hin as [[= <- <-] | []].
    apply String.eqb_eq in E1, E2, E3, E4.
    exists cm, cc. repeat split; assumption.
  - intros (cm & cc & Hcm & Hcc & <- & <- & Hid & <- & <- & <-).
    exists cm. split; [exact Hcm|]. apply in_flat_map.
    exists cc. split; [exact Hcc|].
    rewrite Hid, !String.eqb_refl. simpl. left. reflexivity.
Qed.

(** What a creation that returned has checked and done. *)
Lemma found_or_new_contact_returned customer_id ty v w row w' :
  found_or_new_contact customer_id ty v [] w = (Return row, w') ->
  existsb (fun r => String.eqb (cc_id r) (uuid4 w (draws w)))
          (customer_contacts (working w)) = false /\
  existsb (fun r => String.eqb (cccm_customer_contact_id r) (uuid4 w (draws w))
                    && String.eqb (cccm_type r) ty && String.eqb (cccm_value r) v)
          (customer_contact_comm_methods (working w)) = false /\
  row = (uuid4 w (S (draws w)), uuid4 w (draws w)) /\
  w' = after_contact_creation customer_id ty v w.
Proof.
  unfold found_or_new_contact, add_CustomerContact, add_CustomerContactCommMethod,
    new_uuid, commit, flush_error.
  unfold_monad. simpl.
  destruct (existsb _ (customer_contacts (working w))) eqn:Hpk; [discriminate|].
  simpl. destruct (ContactType_of_value ty) as [t0|] eqn:Hty; [|discriminate].
  simpl. rewrite (ContactType_value_of _ _ Hty).
  destruct (existsb _ (customer_contact_comm_methods (working w))); [discriminate|].
  destruct (existsb _ (customer_contact_comm_methods (working w))) eqn:Hunique;
    [discriminate|].
  intros [= <- <-]. repeat split; reflexivity.
Qed.

Lemma join_after_checked_creation t customer_id ty v u1 u2 :
  contact_comm_join t customer_id ty v = [] ->
  existsb (fun r => String.eqb (cc_id r) u1) (customer_contacts t) = false ->
  existsb (fun r => String.eqb (cccm_customer_contact_id r) u1
                    && String.eqb (cccm_type r) ty && String.eqb (cccm_value r) v)
          (customer_contact_comm_methods t) = false ->
  contact_comm_join
    (add_contact_rows
       t
       {| cc_id := u1; cc_customer_id := customer_id;
          cc_first_name := None; cc_last_name := None |}
       {| cccm_id := u2; cccm_customer_contact_id := u1;
          cccm_type := ty; cccm_value := v |})
    customer_id ty v
  = [(u2, u1)].
Proof.
  intros Hnone Hpk Hunique. unfold contact_comm_join in *. simpl.
  rewrite flat_map_app. simpl. rewrite ?app_nil_r.
  rewrite flat_map_app. simpl. rewrite !String.eqb_refl. simpl.
  match goal with |- (?old ++ ?mine ++ _)%list = _ =>
    assert (old = []) as Hold; [|assert (mine = []) as Hmine]
  end; [| |rewrite Hold, Hmine; reflexivity].
  - apply flat_map_eq_nil. intros cm Hcm.
    rewrite flat_map_app. simpl. rewrite app_nil_r.
    rewrite (proj1 (flat_map_eq_nil _ _) Hnone cm Hcm). simpl.
    destruct (String.eqb u1 (cccm_customer_contact_id cm)) eqn:E1; [|reflexivity].
    rewrite String.eqb_refl. simpl.
    destruct (String.eqb (cccm_type cm) ty) eqn:E2; [|reflexivity].
    destruct (String.eqb (cccm_value cm) v) eqn:E3; [|reflexivity].
    exfalso.
    assert (existsb
              (fun r => String.eqb (cccm_customer_contact_id r) u1
                        && String.eqb (cccm_type r) ty && String.eqb (cccm_value r) v)
              (customer_contact_comm_methods t) = true) as Hin; [|congruence].
    apply existsb_exists. exists cm. split; [exact Hcm|].
    rewrite String.eqb_sym, E1, E2, E3. reflexivity.
  - apply flat_map_eq_nil. intros cc Hcc.
    destruct (String.eqb (cc_id cc) u1) eqn:E; [|reflexivity].
    exfalso.
    assert (existsb (fun r => String.eqb (cc_id r) u1) (customer_contacts t) = true)
      as Hin; [|congruence].
    apply existsb_exists. exists cc. split; assumption.
Qed.

(** X7.  Once the contact find-or-create has returned a pair of ids, the
    same call made again returns the same pair and changes nothing, whether
    the first call found the row or created it: after it, exactly that one
    row matches the key. *)
Theorem contact_find_or_create_idempotent
        (customer_id comm_type : string) (value : json) (w : world)
        (row : string * string) (w' : world) :
  get_customer_contact_comm_method_id customer_id comm_type value w = (Return row, w') ->
  get_customer_contact_comm_method_id customer_id comm_type value w' = (Return row, w') /\
  exists v,
    value = JStr v /\
    contact_comm_join (working w') customer_id
                      (PyStr.lower (PyStr.strip comm_type)) (PyStr.strip v) = [row].
Proof.
  destruct value as [| | | |v| |];
    try (unfold get_customer_contact_comm_method_id; unfold_monad; simpl; discriminate).
  rewrite get_customer_contact_comm_method_id_unfold.
  set (ty := PyStr.lower (PyStr.strip comm_type)). set (key := PyStr.strip v).
  destruct (contact_comm_join (working w) customer_id ty key)
    as [|row0 [|row1 rows]] eqn:Hrows.
  - intros Hrun.
    apply found_or_new_contact_returned in Hrun as (Hpk & Hunique & -> & ->).
    assert (contact_comm_join
              (working (after_contact_creation customer_id ty key w))
              customer_id ty key
            = [(uuid4 w (S (draws w)), uuid4 w (draws w))]) as Hafter.
    { unfold after_contact_creation. simpl.
      apply join_after_checked_creation; assumption. }
    split; [|exists v; split; [reflexivity | exact Hafter]].
    apply get_customer_contact_comm_method_id_found. exact Hafter.
  - simpl. unfold_monad. intros [= <- <-].
    split; [|exists v; split; [reflexivity | exact Hrows]].
    apply get_customer_contact_comm_method_id_found. exact Hrows.
  - simpl. unfold_monad. discriminate.
Qed.

End ContactFurther.

Lemma contact_find_or_create_idempotent_witness :
  let w := Sample.boot Sample.seeded Sample.net_ok in
  let call :=
    get_customer_contact_comm_method_id "customer-1" "phone" (JStr "+15559990000") in
  call (snd (call w)) = (Return ("uuid-i", "uuid-"), snd (call w)).
Proof.
  intros w call.
  apply (contact_find_or_create_idempotent
           "customer-1" "phone" (JStr "+15559990000") w ("uuid-i", "uuid-")
           (snd (call w))).
  vm_compute. reflexivity.
Defined.

(** ** Conversations *)

Section ConversationFurther.
Context {rt : Runtime}.

Lemma existsb_key {A} (f : A -> string) (id : string) (l : list A) :
  existsb (fun r => String.eqb (f r) id) l = id_in id (map f l).
Proof.
  unfold id_in. induction l as [|x l IH]; simpl; [reflexivity|].
  rewrite String.eqb_sym, IH. reflexivity.
Qed.

(** X9.  Conversation resolution, by the rows that carry the key.  One row:
    its id is returned and nothing changes.  Several rows: the
    multiple-conversations error, nothing changes.  No row: a conversation
    with a generated id is inserted and committed and that id returned --
    unless the generated id is already a conversation id, in which case the
    INSERT is refused, the integrity error is raised and the session is
    rolled back to the committed state. *)
Theorem conversation_resolution_cases
        (a b key : string) (w : world) (r : result string) (w' : world) :
  get_conversation_id a b key w = (r, w') ->
  match conversations_with_key key (working w) with
  | [row] => r = Return (conv_id row) /\ w' = w
  | _ :: _ :: _ => r = Raise (ValueError (conversation_multiple key)) /\ w' = w
  | [] =>
      if id_in (uuid4 w (draws w)) (map conv_id (conversations (working w)))
      then r = Raise (IntegrityError (PrimaryKey "conversations")) /\
           durable w' = durable w /\ working w' = durable w
      else r = Return (uuid4 w (draws w)) /\
           w' = after_conversation_creation a b key w
  end.
Proof.
  unfold conversations_with_key, get_conversation_id, select_conversations,
    add_Conversation, new_uuid, commit, flush_error.
  unfold_monad. simpl.
  destruct (List.filter _ (conversations (working w))) as [|row [|row' rows]]; simpl.
  - rewrite existsb_key.
    destruct (id_in _ _); intros [= <- <-]; repeat split; reflexivity.
  - intros [= <- <-]. split; reflexivity.
  - intros [= <- <-]. split; reflexivity.
Qed.

(** X8.  Once a conversation id has been returned for a key, every later
    resolution of that key -- whatever customer and contact ids it is given
    -- returns the same id and changes nothing: exactly one row carries the
    key from then on. *)
Theorem conversation_resolution_stable
        (a b key : string) (w : world) (id : string) (w' : world) :
  get_conversation_id a b key w = (Return id, w') ->
  (exists row, conversations_with_key key (working w') = [row] /\ conv_id row = id) /\
  (forall a' b', get_conversation_id a' b' key w' = (Return id, w')).
Proof.
  intros Hrun.
  assert (exists row, conversations_with_key key (working w') = [row] /\ conv_id row = id)
    as (row & Hone & Hid).
  { revert Hrun.
    unfold conversations_with_key, get_conversation_id, select_conversations,
      add_Conversation, new_uuid, commit, flush_error.
    unfold_monad. simpl.
    destruct (List.filter _ (conversations (working w))) as [|row [|row' rows]] eqn:Hrows;
      simpl.
    - destruct (existsb _ (conversations (working w))); [discriminate|].
      intros [= <- <-]. simpl. rewrite List.filter_app, Hrows. simpl.
      rewrite String.eqb_refl. eexists. split; reflexivity.
    - intros [= <- <-]. exists row. split; [exact Hrows | reflexivity].
    - discriminate. }
  split; [exists row; split; assumption|].
  intros a' b'. rewrite <- Hid. apply get_conversation_id_found. exact Hone.
Qed.

End ConversationFurther.

Lemma conversation_resolution_cases_witness :
  let w := Sample.boot Sample.seeded Sample.net_ok in
  get_conversation_id "customer-1" "contact-1" "contact-1,customer-1" w
  = (Return "uuid-",
     after_conversation_creation "customer-1" "contact-1" "contact-1,customer-1" w).
Proof.
  intros w.
  pose proof (conversation_resolution_cases
                "customer-1" "contact-1" "contact-1,customer-1" w _ _
                (surjective_pairing _)) as Hcases.
  change (conversations_with_key "contact-1,customer-1" (working w))
    with (@nil Conversation) in Hcases.
  change (id_in (uuid4 w (draws w)) (map conv_id (conversations (working w))))
    with false in Hcases.
  destruct Hcases as [Hr Hw].
  rewrite (surjective_pairing (get_conversation_id _ _ _ w)), Hr, Hw. reflexivity.
Defined.

Lemma conversation_resolution_stable_witness :
  let w := Sample.boot Sample.seeded Sample.net_ok in
  let w' := after_conversation_creation
              "customer-1" "contact-1" "contact-1,customer-1" w in
  get_conversation_id "someone" "else" "contact-1,customer-1" w' = (Return "uuid-", w').
Proof.
  intros w w'.
  apply (proj2 (conversation_resolution_stable
                  "customer-1" "contact-1" "contact-1,customer-1" w "uuid-" w'
                  ltac:(vm_compute; reflexivity))).
Defined.

Section ParticipantsKey.
Context {rt : Runtime}.

Lemma append_comma_inj (x x' y y' : string) :
  PyStr.contains_char "," x = false ->
  PyStr.contains_char "," x' = false ->
  x +:+ "," +:+ y = x' +:+ "," +:+ y' ->
  x = x' /\ y = y'.
Proof.
  revert x'. induction x as [|d x IH]; intros [|c x'] Hx Hx' Heq.
  - change (String "," y = String "," y') in Heq. injection Heq as ->. auto.
  - rewrite append_cons in Heq. change (String "," y = String c (x' +:+ "," +:+ y')) in Heq.
    injection Heq as <- _. simpl in Hx'. discriminate.
  - rewrite append_cons in Heq. change (String d (x +:+ "," +:+ y) = String "," y') in Heq.
    injection Heq as -> _. simpl in Hx. discriminate.
  - rewrite !append_cons in Heq. injection Heq as <- Htail.
    cbn [PyStr.contains_char] in Hx, Hx'.
    destruct (Ascii.eqb "," d); [discriminate|].
    destruct (IH x' Hx Hx' Htail) as [-> ->]. auto.
Qed.

(** X10.  For ids that contain no comma (as UUIDs do), the participants key
    determines the pair: two pairs with the same key are the same two ids,
    in one order or the other. *)
Theorem participants_key_determines_pair (a b c d : string) :
  comma_free a = true -> comma_free b = true ->
  comma_free c = true -> comma_free d = true ->
  participants_key a b = participants_key c d ->
  (a = c /\ b = d) \/ (a = d /\ b = c).
Proof.
  unfold comma_free. rewrite !negb_true_iff. intros Ha Hb Hc Hd.
  rewrite !participants_key_sorted.
  destruct (String.ltb b a), (String.ltb d c); intros Heq;
    apply append_comma_inj in Heq as [-> ->]; auto.
Qed.

End ParticipantsKey.

Lemma participants_key_determines_pair_witness :
  ("customer-1" = "contact-1" /\ "contact-1" = "customer-1") \/
  ("customer-1" = "customer-1" /\ "contact-1" = "contact-1").
Proof.
  apply (participants_key_determines_pair
           "customer-1" "contact-1" "contact-1" "customer-1");
    reflexivity.
Defined.

(** ** Recording a message *)

Section MessageRecorder.
Context {rt : Runtime}.

Ltac unfold_create_message :=
  unfold create_message, save_message, add_Message, new_uuid, commit, flush_error;
  unfold_monad; simpl.

(** What [create_message] has done when it returns. *)
Lemma create_message_returned data conversation_id customer_comm_method_id
      contact_comm_method_id message_direction comm_type w m w' :
  create_message data conversation_id customer_comm_method_id contact_comm_method_id
                 message_direction comm_type w = (Return m, w') ->
  exists s timestamp,
    dict_get data "timestamp" = JStr s /\
    fromisoformat (PyStr.replace_char "Z" "+00:00" s) = Some timestamp /\
    m = {| msg_id := uuid4 w (draws w);
           msg_conversation_id := conversation_id;
           msg_from_customer_comm_id :=
             if String.eqb message_direction "outbound"
             then Some customer_comm_method_id else None;
           msg_to_customer_comm_id :=
             if String.eqb message_direction "inbound"
             then Some customer_comm_method_id else None;
           msg_from_contact_comm_id :=
             if String.eqb message_direction "inbound"
             then Some contact_comm_method_id else None;
           msg_to_contact_comm_id :=
             if String.eqb message_direction "outbound"
             then Some contact_comm_method_id else None;
           msg_messaging_provider_id :=
             dict_get data (if String.eqb comm_type "phone"
                            then "messaging_provider_id" else "xillio_id");
           msg_message_type := dict_get data "type";
           msg_body := dict_get data "body";
           msg_attachments :=
             if is_none (dict_get data "attachments") then None
             else Some (dict_get data "attachments");
           msg_timestamp := timestamp |} /\
    durable w' = with_message (working w) m /\
    working w' = durable w' /\
    draws w' = S (draws w) /\
    offline w w'.
Proof.
  unfold_create_message.
  destruct (dict_get data "timestamp") as [| | | |s| |]; try discriminate.
  destruct (fromisoformat _) as [timestamp|] eqn:Hparse; [|discriminate].
  simpl.
  destruct (sqlite_bindable (dict_get data _)); [|discriminate].
  destruct (sqlite_bindable (dict_get data "type")); [|discriminate].
  destruct (sqlite_bindable (dict_get data "body")); [|discriminate].
  destruct (is_none (dict_get data "type")); [discriminate|].
  destruct (existsb _ (messages (working w))); [discriminate|].
  intros [= <- <-]. exists s, timestamp.
  repeat split; first [exact Hparse | reflexivity].
Qed.

(** What [create_message] leaves behind when it raises. *)
Lemma create_message_raised data conversation_id customer_comm_method_id
      contact_comm_method_id message_direction comm_type w e w' :
  create_message data conversation_id customer_comm_method_id contact_comm_method_id
                 message_direction comm_type w = (Raise e, w') ->
  is_Exception e = true /\
  durable w' = durable w /\
  (working w' = working w \/ working w' = durable w) /\
  offline w w'.
Proof.
  unfold_create_message. unfold offline.
  destruct (dict_get data "timestamp") as [| | | |s| |];
    try (intros [= <- <-]; simpl; auto 10).
  destruct (fromisoformat _) as [timestamp|]; [|intros [= <- <-]; simpl; auto 10].
  simpl.
  destruct (sqlite_bindable (dict_get data _)) as [|e1] eqn:H1.
  2:{ intros [= <- <-]. simpl.
      destruct (dict_get data _); simpl in H1; try discriminate;
        try (destruct (_ && _); try discriminate);
        injection H1 as <-; auto 10. }
  destruct (sqlite_bindable (dict_get data "type")) as [|e2] eqn:H2.
  2:{ intros [= <- <-]. simpl.
      destruct (dict_get data "type"); simpl in H2; try discriminate;
        try (destruct (_ && _); try discriminate);
        injection H2 as <-; auto 10. }
  destruct (sqlite_bindable (dict_get data "body")) as [|e3] eqn:H3.
  2:{ intros [= <- <-]. simpl.
      destruct (dict_get data "body"); simpl in H3; try discriminate;
        try (destruct (_ && _); try discriminate);
        injection H3 as <-; auto 10. }
  destruct (is_none (dict_get data "type")); [intros [= <- <-]; simpl; auto 10|].
  destruct (existsb _ (messages (working w))); [intros [= <- <-]; simpl; auto 10|].
  discriminate.
Qed.

(** X11.  A recorded message points at the conversation it was given and
    carries its two participants by direction: inbound sets the sending
    contact and the receiving customer comm method, outbound the sending
    customer comm method and the receiving contact.  In no case are both
    customer references set, or both contact references. *)
Theorem create_message_directions
        (data : payload)
        (conversation_id customer_comm_method_id contact_comm_method_id
         message_direction comm_type : string) (w : world) (m : Message) (w' : world) :
  create_message data conversation_id customer_comm_method_id contact_comm_method_id
                 message_direction comm_type w = (Return m, w') ->
  msg_conversation_id m = conversation_id /\
  (message_direction = "inbound" ->
   msg_from_contact_comm_id m = Some contact_comm_method_id /\
   msg_to_customer_comm_id m = Some customer_comm_method_id /\
   msg_from_customer_comm_id m = None /\ msg_to_contact_comm_id m = None) /\
  (message_direction = "outbound" ->
   msg_from_customer_comm_id m = Some customer_comm_method_id /\
   msg_to_contact_comm_id m = Some contact_comm_method_id /\
   msg_to_customer_comm_id m = None /\ msg_from_contact_comm_id m = None) /\
  (msg_from_customer_comm_id m = None \/ msg_to_customer_comm_id m = None) /\
  (msg_from_contact_comm_id m = None \/ msg_to_contact_comm_id m = None).
Proof.
  intros Hrun.
  apply create_message_returned in Hrun as (s & ts & _ & _ & -> & _).
  simpl. split; [reflexivity|].
  split; [intros ->; simpl; auto|].
  split; [intros ->; simpl; auto|].
  destruct (String.eqb message_direction "outbound") eqn:Hout;
    destruct (String.eqb message_direction "inbound") eqn:Hin; auto.
  apply String.eqb_eq in Hout, Hin. congruence.
Qed.

(** X12.  Recording is all or nothing.  When [create_message] returns, the
    committed tables are the session's tables with exactly that one message
    appended, under the next generated id, holding the payload's type, body,
    correlation id and attachments as they came.  When it raises -- a
    timestamp that is missing or does not parse, a value SQLite cannot
    store, an id already taken -- the committed tables are untouched and the
    session holds no new message. *)
Theorem create_message_all_or_nothing
        (data : payload)
        (conversation_id customer_comm_method_id contact_comm_method_id
         message_direction comm_type : string) (w : world)
        (r : result Message) (w' : world) :
  create_message data conversation_id customer_comm_method_id contact_comm_method_id
                 message_direction comm_type w = (r, w') ->
  match r with
  | Return m =>
      msg_id m = uuid4 w (draws w) /\
      durable w' = with_message (working w) m /\
      working w' = durable w' /\
      msg_message_type m = dict_get data "type" /\
      msg_body m = dict_get data "body" /\
      msg_messaging_provider_id m
      = dict_get data (if String.eqb comm_type "phone"
                       then "messaging_provider_id" else "xillio_id") /\
      msg_attachments m
      = (if is_none (dict_get data "attachments") then None
         else Some (dict_get data "attachments"))
  | Raise e =>
      durable w' = durable w /\
      (working w' = working w \/ working w' = durable w)
  end.
Proof.
  destruct r as [m|e]; intros Hrun.
  - apply create_message_returned in Hrun
      as (s & ts & _ & _ & -> & Hdurable & Hworking & _).
    simpl. repeat split; assumption.
  - apply create_message_raised in Hrun as (_ & Hd & Hw & _). split; assumption.
Qed.

End MessageRecorder.

Lemma create_message_directions_witness :
  let w := Sample.boot Sample.seeded Sample.net_ok in
  let run := create_message Sample.inbound_sms_hi "conversation-1" "ccm-1" "cccm-1"
                            "inbound" "phone" w in
  match fst run with
  | Return m =>
      msg_from_contact_comm_id m = Some "cccm-1" /\
      msg_to_customer_comm_id m = Some "ccm-1" /\
      msg_from_customer_comm_id m = None /\ msg_to_contact_comm_id m = None
  | Raise _ => False
  end.
Proof.
  intros w run.
  destruct (fst run) as [m|e] eqn:Hrun.
  - apply (create_message_directions
             Sample.inbound_sms_hi "conversation-1" "ccm-1" "cccm-1" "inbound" "phone"
             w m (snd run)).
    + rewrite <- Hrun. apply surjective_pairing.
    + reflexivity.
  - vm_compute in Hrun. discriminate.
Defined.

Lemma create_message_all_or_nothing_witness :
  let w := Sample.boot Sample.seeded Sample.net_ok in
  let run := create_message Sample.inbound_sms_hi "conversation-1" "ccm-1" "cccm-1"
                            "inbound" "phone" w in
  match fst run with
  | Return m =>
      msg_id m = "uuid-" /\ msg_body m = JStr "hi" /\
      messages (durable (snd run)) = [m]
  | Raise _ => False
  end.
Proof.
  intros w run.
  pose proof (create_message_all_or_nothing
                Sample.inbound_sms_hi "conversation-1" "ccm-1" "cccm-1" "inbound" "phone"
                w (fst run) (snd run) (surjective_pairing run)) as Hspec.
  destruct (fst run) as [m|e] eqn:Hrun.
  - destruct Hspec as (Hid & Hdurable & _ & _ & Hbody & _).
    rewrite Hid, Hbody, Hdurable. repeat split.
  - vm_compute in Hrun. discriminate.
Defined.

(** ** Delivery *)

Section DeliveryFurther.
Context {rt : Runtime}.

(** X13.  Timeouts that stop in time are absorbed.  If the first [k]
    attempts time out ([k] below [MAX_RETRIES]) and the next one is answered,
    the wrapper returns [True] after exactly [k+1] POSTs, having slept the
    backoff delay after each timeout and nothing after the answer; the
    database is not touched. *)
Theorem retry_recovers_from_timeouts (api_url : string) (data : payload)
        (w : world) (k : nat) :
  (k < MAX_RETRIES)%nat ->
  (forall j, (j < k)%nat -> network w (posts w + j)%nat = Some TimeoutError) ->
  network w (posts w + k)%nat = None ->
  exists w',
    api_retry_with_backoff (send_message api_url data) w = (Return true, w') /\
    posts w' = (posts w + S k)%nat /\
    events w'
    = (events (after_timeouts api_url data (seq 1 k) w) ++ [Post api_url data])%list /\
    durable w' = durable w /\ working w' = working w.
Proof.
  intros Hk Hpre Hok. unfold api_retry_with_backoff.
  replace (seq 1 MAX_RETRIES)
    with (seq 1 k ++ S k :: seq (S (S k)) (MAX_RETRIES - S k))%list.
  2:{ unfold MAX_RETRIES in *. destruct k as [|[|[|k]]]; try lia; reflexivity. }
  rewrite retry_loop_timeouts by (rewrite length_seq; exact Hpre).
  destruct (after_timeouts_frame api_url data (seq 1 k) w)
    as (Hd & Hw & _ & _ & Hn & Hp).
  rewrite length_seq in Hp.
  simpl. unfold send_message at 1. rewrite Hn, Hp, Hok.
  eexists. split; [reflexivity|]. simpl.
  repeat split; try assumption. lia.
Qed.

(** Any run of the loop over [atts]: at most one POST per listed attempt, at
    least one if an attempt is listed, and only an exception that
    [except Exception] does not catch can leave it. *)
Lemma retry_loop_bounds api_url data atts w r w' :
  retry_loop (send_message api_url data) atts w = (r, w') ->
  (posts w <= posts w' <= posts w + length atts)%nat /\
  (atts <> [] -> posts w < posts w')%nat /\
  draws w' = draws w /\
  (forall e, r = Raise e -> is_Exception e = false).
Proof.
  revert w. induction atts as [|a atts IH]; simpl; intros w.
  - unfold ret. intros [= <- <-]. repeat split; try lia; [congruence | discriminate].
  - unfold send_message at 1.
    destruct (network w (posts w)) as [e|].
    + destruct (is_TimeoutError e).
      * unfold bind, sleep. simpl. intros Hrun.
        apply IH in Hrun as (Hle & _ & Hdraws & Hraise). simpl in *.
        repeat split; try assumption; lia.
      * destruct (is_Exception e) eqn:Hex; intros [= <- <-]; simpl;
          repeat split; try lia; try discriminate.
        intros e' [= <-]. exact Hex.
    + intros [= <- <-]. simpl. repeat split; try lia. discriminate.
Qed.

(** X14.  Whatever the network does, one call of the retry wrapper makes at
    least one and at most [MAX_RETRIES] POSTs, leaves the database and the id
    source alone, and lets no [Exception] escape: it returns a boolean, or
    propagates an exception that [except Exception] does not catch. *)
Theorem retry_wrapper_is_bounded (api_url : string) (data : payload)
        (w : world) (r : result bool) (w' : world) :
  api_retry_with_backoff (send_message api_url data) w = (r, w') ->
  (posts w < posts w' <= posts w + MAX_RETRIES)%nat /\
  durable w' = durable w /\ working w' = working w /\ draws w' = draws w /\
  (forall e, r = Raise e -> is_Exception e = false).
Proof.
  unfold api_retry_with_backoff. intros Hrun.
  pose proof (retry_loop_tables _ _ _ _ _ _ Hrun) as [Hd Hw].
  apply retry_loop_bounds in Hrun as ([_ Hle] & Hlt & Hdraws & Hraise).
  rewrite length_seq in Hle.
  repeat split; try assumption. apply Hlt. discriminate.
Qed.

End DeliveryFurther.

Lemma retry_recovers_from_timeouts_witness :
  exists w',
    api_retry_with_backoff
      (send_message SMS_OUTBOUND_URL Sample.outbound_sms_hello)
      (Sample.boot Sample.seeded
                   (fun n => match n with
                             | O | S O => Some TimeoutError
                             | _ => None
                             end)) = (Return true, w') /\
    posts w' = 3%nat.
Proof.
  destruct (retry_recovers_from_timeouts
              SMS_OUTBOUND_URL Sample.outbound_sms_hello
              (Sample.boot Sample.seeded
                           (fun n => match n with
                                     | O | S O => Some TimeoutError
                                     | _ => None
                                     end)) 2)
    as (w' & Hrun & Hposts & _).
  - unfold MAX_RETRIES. lia.
  - intros j Hj. assert (j = 0 \/ j = 1)%nat as [-> | ->] by lia; reflexivity.
  - reflexivity.
  - exists w'. split; assumption.
Defined.

Lemma retry_wrapper_is_bounded_witness :
  let run :=
    api_retry_with_backoff
      (send_message SMS_OUTBOUND_URL Sample.outbound_sms_hello)
      (Sample.boot Sample.seeded Sample.net_timeout_then_rejects) in
  (0 < posts (snd run) <= 3)%nat.
Proof.
  intros run.
  apply (retry_wrapper_is_bounded
           SMS_OUTBOUND_URL Sample.outbound_sms_hello
           (Sample.boot Sample.seeded Sample.net_timeout_then_rejects)
           (fst run) (snd run)).
  apply surjective_pairing.
Defined.
